(** * go-eth2-wallet-mpc: the account, its JSON record and the key-service client

    A shallow embedding of [account.go] and of the revisions of
    [key_service.go] that the repository carries, with the properties of
    the specification stated and proved over it.

    Conventions.
    - A Go [[]byte] is a [list byte]: a nil slice and an empty one are not
      told apart (encoding/json writes the first as [null], the second as
      the empty string).  A Go [string] is a [string], the sequence of its
      bytes; [uint] and [uint64] are [Z] (64 bits).
    - A function returning [(T, error)] returns an [outcome T], one
      returning [error] an [outcome unit]; a nil dereference is the third
      outcome, [Panic].
    - A method that assigns a field of its receiver, or takes its mutex,
      returns the receiver as it leaves it.
    - Calls over the network thread a [Net]: the requests sent so far and
      the peer that answers them.
    - The packages the code imports and this repository does not contain
      (net/url, google/uuid, go-eth2-types, the keystore encryptor), and
      the wallet, whose file is not among the sources, are the fields of
      the class [Libs]; what the code relies on is stated in [LibsLaws].
      encoding/hex, base64 and the UTF-8 coercion of encoding/json are
      small enough to be written out. *)

From Stdlib Require Import ZArith NArith List Ascii String Strings.Byte.
From Stdlib Require Import Floats.SpecFloat.
From stdpp Require Import base option list strings gmap fin_maps.

Local Open Scope string_scope.
Local Open Scope Z_scope.

(* ===================================================================== *)
(** ** Errors and outcomes *)
(* ===================================================================== *)

(** The packages whose errors the code passes on unchanged. *)
Inductive library : Type :=
| encoding_json | encoding_hex | google_uuid | eth2_types
| net_url | net_http | io_ioutil.

(** A Go [error] value.  [errors_New msg] is an error built in this
    package, by [errors.New(msg)] or by [fmt.Errorf]; [lib_error l] is an
    error that package [l] returned and the code passes on as it is. *)
Inductive error : Type :=
| errors_New (msg : string)
| lib_error (origin : library).

Definition fmt_Errorf (msg : string) : error := errors_New msg.

Inductive outcome (A : Type) : Type :=
| Ok (a : A)
| Err (e : error)
| Panic.
Arguments Ok {A} a.
Arguments Err {A} e.
Arguments Panic {A}.

Definition omap {A B} (f : A -> B) (x : outcome A) : outcome B :=
  match x with
  | Ok a => Ok (f a)
  | Err e => Err e
  | Panic => Panic
  end.

(** A library call that failed: its error is passed on. *)
Definition orElse {A} (x : option A) (l : library) : outcome A :=
  match x with
  | Some a => Ok a
  | None => Err (lib_error l)
  end.

(* ===================================================================== *)
(** ** encoding/hex and the [%x] verb *)
(* ===================================================================== *)

Module hex.
Definition hextable : string := "0123456789abcdef".

Definition digit (n : N) : ascii :=
  match String.get (N.to_nat n) hextable with
  | Some c => c
  | None => "0"%char
  end.

(** [fromHexChar]: both cases of the letters are accepted. *)
Definition fromHexChar (c : ascii) : option N :=
  let n := N_of_ascii c in
  if ((48 <=? n) && (n <=? 57))%N then Some (n - 48)%N
  else if ((97 <=? n) && (n <=? 102))%N then Some (n - 97 + 10)%N
  else if ((65 <=? n) && (n <=? 70))%N then Some (n - 65 + 10)%N
  else None.

(** [fmt.Sprintf("%x", b)] and [hex.EncodeToString(b)]. *)
Fixpoint EncodeToString (bs : list byte) : string :=
  match bs with
  | [] => ""
  | b :: rest =>
      let n := Byte.to_N b in
      String (digit (n / 16)) (String (digit (n mod 16)) (EncodeToString rest))
  end.

(** [hex.DecodeString]: [None] is [ErrLength] or [InvalidByteError]. *)
Fixpoint DecodeString (s : string) : option (list byte) :=
  match s with
  | EmptyString => Some []
  | String _ EmptyString => None
  | String a (String b rest) =>
      match fromHexChar a, fromHexChar b with
      | Some h, Some l =>
          match Byte.of_N (h * 16 + l), DecodeString rest with
          | Some x, Some xs => Some (x :: xs)
          | _, _ => None
          end
      | _, _ => None
      end
  end.

End hex.

(* ===================================================================== *)
(** ** encoding/base64, as encoding/json uses it for a [[]byte] *)
(* ===================================================================== *)

Module base64.
Definition encodeStd : string :=
  "ABCDEFGHIJKLMNOPQRSTUVWXYZabcdefghijklmnopqrstuvwxyz0123456789+/".

Definition char (n : N) : ascii :=
  match String.get (N.to_nat n) encodeStd with
  | Some c => c
  | None => "="%char
  end.

(** [base64.StdEncoding.EncodeToString]: three bytes give four characters,
    a shorter tail is padded with [=]. *)
Fixpoint EncodeToString (bs : list byte) : string :=
  match bs with
  | [] => ""
  | [a] =>
      let x := Byte.to_N a in
      String (char (x / 4)) (String (char (x mod 4 * 16)) "==")
  | [a; b] =>
      let x := Byte.to_N a in
      let y := Byte.to_N b in
      String (char (x / 4)) (String (char (x mod 4 * 16 + y / 16))
        (String (char (y mod 16 * 4)) "="))
  | a :: b :: c :: rest =>
      let x := Byte.to_N a in
      let y := Byte.to_N b in
      let z := Byte.to_N c in
      String (char (x / 4)) (String (char (x mod 4 * 16 + y / 16))
        (String (char (y mod 16 * 4 + z / 64)) (String (char (z mod 64))
          (EncodeToString rest))))
  end%N.
End base64.

(* ===================================================================== *)
(** ** unicode/utf8, as encoding/json uses it for a string *)
(* ===================================================================== *)

Module utf8.

(** [first] and [acceptRanges]: for the leading byte of a sequence of
    more than one byte, the size of the sequence and the range of its
    second byte.  The bytes below 0x80 stand for themselves; 0x80 to 0xC1
    and 0xF5 to 0xFF lead nothing. *)
Definition first (b : N) : option (nat * N * N) :=
  (if b <? 194 then None
   else if b <? 224 then Some (2%nat, 128, 191)
   else if b =? 224 then Some (3%nat, 160, 191)
   else if b <? 237 then Some (3%nat, 128, 191)
   else if b =? 237 then Some (3%nat, 128, 159)
   else if b <? 240 then Some (3%nat, 128, 191)
   else if b =? 240 then Some (4%nat, 144, 191)
   else if b <? 244 then Some (4%nat, 128, 191)
   else if b =? 244 then Some (4%nat, 128, 143)
   else None)%N.

Definition within (lo hi : N) (c : ascii) : bool :=
  ((lo <=? N_of_ascii c) && (N_of_ascii c <=? hi))%N.

(** A continuation byte: [locb] to [hicb]. *)
Definition cont (c : ascii) : bool := within 128 191 c.

(** U+FFFD, in UTF-8. *)
Definition RuneError : string := String "239" (String "191" (String "189" "")).

(** The text that encoding/json writes for a string, and the text that it
    reads from a string literal: every byte at which
    [utf8.DecodeRuneInString] answers [(RuneError, 1)] is replaced by
    U+FFFD and the scan goes on at the next byte; the rest stays. *)
Fixpoint coerce (s : string) : string :=
  match s with
  | EmptyString => EmptyString
  | String b rest =>
      let bad := RuneError +:+ coerce rest in
      if (N_of_ascii b <? 128)%N then String b (coerce rest)
      else
        match first (N_of_ascii b), rest with
        | Some (2%nat, lo, hi), String c1 r1 =>
            if within lo hi c1 then String b (String c1 (coerce r1)) else bad
        | Some (3%nat, lo, hi), String c1 (String c2 r2) =>
            if within lo hi c1 && cont c2
            then String b (String c1 (String c2 (coerce r2))) else bad
        | Some (4%nat, lo, hi), String c1 (String c2 (String c3 r3)) =>
            if within lo hi c1 && cont c2 && cont c3
            then String b (String c1 (String c2 (String c3 (coerce r3)))) else bad
        | _, _ => bad
        end
  end.

(** A string of bytes below 0x80. *)
Fixpoint is_ascii (s : string) : bool :=
  match s with
  | EmptyString => true
  | String b rest => (N_of_ascii b <? 128)%N && is_ascii rest
  end.

End utf8.

(* ===================================================================== *)
(** ** The packages the code calls *)
(* ===================================================================== *)

(** What the code uses of the packages it imports.  A call that can fail
    returns an [option]: [None] is the package's error. *)
Class Libs : Type := {
  (** net/url *)
  url_URL : Type;
  url_Parse : string -> option url_URL;         (* url.Parse(raw) *)
  url_String : url_URL -> string;               (* u.String(), also the %s verb *)
  url_IsAbs : url_URL -> bool;                  (* u.IsAbs() *)
  url_ResolveReference : url_URL -> url_URL -> url_URL;
                                                (* u.ResolveReference(ref) *)
  (** github.com/google/uuid *)
  UUID : Type;
  uuid_Nil : UUID;                              (* the zero value *)
  uuid_String : UUID -> string;                 (* id.String() *)
  uuid_Parse : string -> option UUID;           (* uuid.Parse(s) *)
  (** github.com/wealdtech/go-eth2-types *)
  etypes_PublicKey : Type;
  pk_Marshal : etypes_PublicKey -> list byte;   (* key.Marshal() *)
  BLSPublicKeyFromBytes : list byte -> option etypes_PublicKey;
  etypes_Signature : Type;
  BLSSignatureFromBytes : list byte -> option etypes_Signature;
  etypes_PrivateKey : Type;
  (** go-eth2-wallet-types and the keystorev4 encryptor *)
  Encryptor : Type;
  keystorev4_New : Encryptor;                   (* keystorev4.New() *)
  (** wallet.go, which the account only reads the encryptor of *)
  Wallet : Type;
  wallet_encryptor : Wallet -> option Encryptor;
  (** encoding/json: does an object key name the struct field with this
      tag (the same name, or the same up to case) *)
  json_field_match : string -> string -> bool;
  (** [uint(f)] for an [f] that no [uint] represents: the language leaves
      the result to the implementation *)
  uint_unrepresentable : spec_float -> Z
}.

(** What the code relies on. *)
Class LibsLaws (L : Libs) : Prop := {
  (** "Safe to ignore the error as this is already a public key": the
      bytes of a key decode to a key with the same bytes. *)
  pk_reparse : forall pk : etypes_PublicKey,
    exists pk', BLSPublicKeyFromBytes (pk_Marshal pk) = Some pk' /\
                pk_Marshal pk' = pk_Marshal pk;
  (** The text of an identifier parses back to it. *)
  uuid_reparse : forall u : UUID, uuid_Parse (uuid_String u) = Some u;
  (** The text of an identifier is hex digits and dashes: it is valid
      UTF-8, and JSON stores it as it is. *)
  uuid_String_text : forall u : UUID, utf8.coerce (uuid_String u) = uuid_String u;
  (** A field is named by its own tag. *)
  json_field_match_refl : forall tag, json_field_match tag tag = true
}.

(* ===================================================================== *)
(** ** float64 and the conversion to [uint] *)
(* ===================================================================== *)

Module float64.
Definition prec : Z := 53.
Definition emax : Z := 1024.

(** The float64 nearest to [m * 2^e] (ties to even), as strconv.ParseFloat
    gives for a literal with that value. *)
Definition of_dyadic (m e : Z) : spec_float := binary_normalize prec emax m e false.

Definition is_finite (f : spec_float) : bool :=
  match f with
  | S754_zero _ | S754_finite _ _ _ => true
  | S754_infinity _ | S754_nan => false
  end.

(** The integer part of a finite float: the fraction is discarded. *)
Definition trunc (f : spec_float) : option Z :=
  match f with
  | S754_zero _ => Some 0
  | S754_finite s m e =>
      let a := if 0 <=? e then Zpos m * 2 ^ e else Zpos m / 2 ^ (- e) in
      Some (if s then - a else a)
  | S754_infinity _ | S754_nan => None
  end.

(** [f] is a whole number. *)
Definition is_integer (f : spec_float) : bool :=
  match f with
  | S754_zero _ => true
  | S754_finite _ m e => (0 <=? e) || (Zpos m mod 2 ^ (- e) =? 0)
  | S754_infinity _ | S754_nan => false
  end.
End float64.

(** [uint(f)], on a 64-bit platform. *)
Definition go_uint `{Libs} (f : spec_float) : Z :=
  match float64.trunc f with
  | Some z => if (0 <=? z) && (z <? 2 ^ 64) then z else uint_unrepresentable f
  | None => uint_unrepresentable f
  end.

(* ===================================================================== *)
(** ** encoding/json *)
(* ===================================================================== *)

(** A JSON text is taken by its syntax tree; a [[]byte] that is not a JSON
    text is [Malformed].  A number literal is the dyadic [m * 2^e] that it
    denotes: every integer and every float64 is one.  A string literal is
    the sequence of bytes that it denotes, escapes resolved; the encoder
    and the decoder coerce it to valid UTF-8 ([utf8.coerce]). *)
#[local] Set Warnings "-register-all".
Inductive jvalue : Type :=
| JNull
| JBool (b : bool)
| JNumber (m e : Z)
| JString (s : string)
| JArray (l : list jvalue)
| JObject (kvs : list (string * jvalue)).

Inductive document : Type :=
| Malformed
| Doc (v : jvalue).

Module json.

(** Decoding into [interface{}] turns every number into a float64, and
    fails on a literal that is out of its range. *)
Fixpoint numbers_fit (v : jvalue) : bool :=
  match v with
  | JNumber m e => float64.is_finite (float64.of_dyadic m e)
  | JArray l => forallb numbers_fit l
  | JObject kvs => forallb (fun kv => match kv with (_, x) => numbers_fit x end) kvs
  | JNull | JBool _ | JString _ => true
  end.

(** A later member overrides an earlier one with the same key. *)
Definition obj_to_map (kvs : list (string * jvalue)) : gmap string jvalue :=
  list_to_map (reverse kvs).

(** The value that the decoder makes of a literal: every string in it, a
    key as well, is coerced to valid UTF-8. *)
Fixpoint unquote (v : jvalue) : jvalue :=
  match v with
  | JString s => JString (utf8.coerce s)
  | JArray l => JArray (map unquote l)
  | JObject kvs =>
      JObject (map (fun kv => match kv with (k, x) => (utf8.coerce k, unquote x) end) kvs)
  | JNull | JBool _ | JNumber _ _ => v
  end.

Definition unquote_members (kvs : list (string * jvalue)) : list (string * jvalue) :=
  map (fun kv => match kv with (k, x) => (utf8.coerce k, unquote x) end) kvs.

(** [json.Unmarshal(data, &v)] for [v map[string]interface{}]: an object
    gives its members, [null] leaves the nil map, anything else is an
    error. *)
Definition Unmarshal_map (data : document) : option (gmap string jvalue) :=
  match data with
  | Doc JNull => Some ∅
  | Doc (JObject kvs) =>
      if numbers_fit (JObject kvs) then Some (obj_to_map (unquote_members kvs)) else None
  | Doc _ | Malformed => None
  end.

(** The type assertions [val.(string)] and [val.(float64)] on a decoded
    value. *)
Definition as_string (val : jvalue) : option string :=
  match val with
  | JString s => Some s
  | _ => None
  end.

Definition as_float64 (val : jvalue) : option spec_float :=
  match val with
  | JNumber m e => Some (float64.of_dyadic m e)
  | _ => None
  end.

(** The values the code stores in a [map[string]interface{}] that it
    marshals. *)
Inductive goval : Type :=
| GoString (s : string)
| GoUint (n : Z).

(** A string is written coerced to valid UTF-8. *)
Definition of_goval (x : goval) : jvalue :=
  match x with
  | GoString s => JString (utf8.coerce s)
  | GoUint n => JNumber n 0
  end.

(** [json.Marshal(data)] for [data map[string]interface{}]: one member per
    key.  (The encoder writes the keys sorted; no decoder here depends on
    the order of members with different keys.  The keys that the code
    uses are ASCII literals, which are written as they are.) *)
Definition Marshal_map (data : gmap string goval) : document :=
  Doc (JObject (map_to_list (of_goval <$> data))).

(** Decoding an object into a struct with one string field tagged [tag]:
    members that name the field are stored in turn, [null] stores
    nothing, a value of another type is an error; other members are
    skipped.  Keys and strings are coerced as they are read. *)
Fixpoint string_field `{Libs} (tag : string) (kvs : list (string * jvalue))
    (cur : string) : option string :=
  match kvs with
  | [] => Some cur
  | (k, x) :: rest =>
      if json_field_match tag (utf8.coerce k) then
        match x with
        | JString s => string_field tag rest (utf8.coerce s)
        | JNull => string_field tag rest cur
        | _ => None
        end
      else string_field tag rest cur
  end.

Definition Unmarshal_string_struct `{Libs} (tag : string) (body : document)
    : option string :=
  match body with
  | Doc JNull => Some ""
  | Doc (JObject kvs) => string_field tag kvs ""
  | Doc _ | Malformed => None
  end.

End json.

(* ===================================================================== *)
(** ** net/http *)
(* ===================================================================== *)

Inductive method : Type := GET | POST.

Record request : Type := {
  req_method : method;
  req_url : string;
  req_contentType : string;
  req_body : option document
}.

(** What a round trip gives: [http.Get]/[http.Post] fail, or there is a
    response whose body [ioutil.ReadAll] reads or fails to read.  The code
    never looks at the status. *)
Inductive response : Type :=
| TransportError (e : error)
| ReadError (status : Z) (e : error)
| Response (status : Z) (body : document).

(** The network: the peer answers a request knowing the earlier ones. *)
Record Net : Type := {
  peer : list request -> request -> response;
  sent : list request
}.

Definition NetM (A : Type) : Type := Net -> outcome A * Net.

Definition ret {A} (x : outcome A) : NetM A := fun n => (x, n).

Definition bind {A B} (c : NetM A) (k : A -> NetM B) : NetM B :=
  fun n =>
    match c n with
    | (Ok a, n') => k a n'
    | (Err e, n') => (Err e, n')
    | (Panic, n') => (Panic, n')
    end.

Notation "'let*' x ':=' c 'in' k" := (bind c (fun x => k))
  (at level 10, x name, c at level 100, k at level 200).

Definition roundTrip (r : request) : NetM document :=
  fun n =>
    let n' := {| peer := peer n; sent := sent n ++ [r] |} in
    match peer n (sent n) r with
    | TransportError e => (Err e, n')
    | ReadError _ e => (Err e, n')
    | Response _ body => (Ok body, n')
    end.

(** [http.Get(url)] followed by [ioutil.ReadAll(resp.Body)]. *)
Definition http_Get (url : string) : NetM document :=
  roundTrip {| req_method := GET; req_url := url;
               req_contentType := ""; req_body := None |}.

(** [http.Post(url, contentType, body)] followed by
    [ioutil.ReadAll(resp.Body)]. *)
Definition http_Post (url contentType : string) (data : document) : NetM document :=
  roundTrip {| req_method := POST; req_url := url;
               req_contentType := contentType; req_body := Some data |}.

(** [u.Parse(ref)] of net/url: [ref] is parsed, then resolved against [u].
    The code resolves paths only, and resolving a reference without a
    scheme reads the base: a nil base panics there. *)
Definition url_Parse_ref `{Libs} (u : option url_URL) (ref : string) : outcome url_URL :=
  match url_Parse ref with
  | None => Err (lib_error net_url)
  | Some r =>
      match u with
      | Some base => Ok (url_ResolveReference base r)
      | None => Panic
      end
  end.

(* ===================================================================== *)
(** ** key_service.go, the revision that keeps the public key *)
(* ===================================================================== *)

(** The client holds [url], [publicKey] and [version]; [PublicKey] answers
    from the stored key, its GET being commented out. *)
Module KeyServiceCached.
Section WithLibs.
Context `{Libs}.

Record keyService : Type := {
  url : option url_URL;
  publicKey : option etypes_PublicKey;
  version : Z
}.

Record signRequest : Type := {
  Payload : string;   (* `json:"payload"` *)
  Domain : Z          (* `json:"domain"` *)
}.

(** [json.Marshal(r)] for [r *signRequest]: the fields in their order,
    the string coerced to valid UTF-8.  It has no failing case, so the
    code's [if err != nil] after it is dead. *)
Definition Marshal_signRequest (r : signRequest) : document :=
  Doc (JObject [("payload", JString (utf8.coerce (Payload r)));
                ("domain", JNumber (Domain r) 0)]).

(** [signResponse] has the one field [Signature], tagged "sign". *)
Definition Unmarshal_signResponse (body : document) : option string :=
  json.Unmarshal_string_struct "sign" body.

Definition MarshalJSON (ks : keyService) : outcome document :=
  match publicKey ks, url ks with
  | Some pk, Some u =>
      Ok (json.Marshal_map
            (<["version" := json.GoUint (version ks)]>
               (<["url" := json.GoString (url_String u)]>
                  (<["pubkey" := json.GoString (hex.EncodeToString (pk_Marshal pk))]> ∅))))
  | _, _ => Panic
  end.

Definition UnmarshalJSON (ks : keyService) (data : document)
    : keyService * outcome unit :=
  match json.Unmarshal_map data with
  | None => (ks, Err (lib_error encoding_json))
  | Some v =>
  match v !! "url" with
  | None => (ks, Err (errors_New "keyService url missing"))
  | Some val =>
  match json.as_string val with
  | None => (ks, Err (errors_New "keyService url invalid"))
  | Some urlStr =>
  match url_Parse urlStr with
  | None => (ks, Err (lib_error net_url))
  | Some u =>
  let ks := {| url := Some u; publicKey := publicKey ks; version := version ks |} in
  match v !! "pubkey" with
  | None => (ks, Err (errors_New "keyService pubkey missing"))
  | Some val =>
  match json.as_string val with
  | None => (ks, Err (errors_New "keyService pubkey invalid"))
  | Some pkStr =>
  match hex.DecodeString pkStr with
  | None => (ks, Err (lib_error encoding_hex))
  | Some bytes =>
  match BLSPublicKeyFromBytes bytes with
  | None =>
      (* the failed call has already overwritten the field with nil *)
      ({| url := url ks; publicKey := None; version := version ks |},
       Err (lib_error eth2_types))
  | Some pk =>
  let ks := {| url := url ks; publicKey := Some pk; version := version ks |} in
  match v !! "version" with
  | None => (ks, Err (errors_New "keyService version missing"))
  | Some val =>
  match json.as_float64 val with
  | None => (ks, Err (errors_New "keyService version invalid"))
  | Some f =>
      ({| url := url ks; publicKey := publicKey ks; version := go_uint f |}, Ok tt)
  end end end end end end end end end end.

(** [newKeyService(url *url.URL)]. *)
Definition newKeyService (u : url_URL) : outcome keyService :=
  if negb (url_IsAbs u) then
    Err (fmt_Errorf ("keyService URL '" +:+ url_String u +:+ "' is not absolute"))
  else
    Ok {| url := Some u; publicKey := None; version := 0 |}.

(** [PublicKey()]: a copy of the stored key, made through its bytes; the
    error of the copy is dropped, so a failed copy is a nil key and no
    error. *)
Definition PublicKey (ks : keyService) : NetM (option etypes_PublicKey) :=
  match publicKey ks with
  | None => ret Panic
  | Some pk => ret (Ok (BLSPublicKeyFromBytes (pk_Marshal pk)))
  end.

Definition Sign (ks : keyService) (payload : list byte) (domain : Z)
    : NetM etypes_Signature :=
  let r := {| Payload := string_of_list_byte payload; Domain := domain |} in
  let data := Marshal_signRequest r in
  let* pubkey := PublicKey ks in
  let* pubkey := ret (match pubkey with Some k => Ok k | None => Panic end) in
  let endpoint := "/" +:+ hex.EncodeToString (pk_Marshal pubkey) in
  let* u := ret (url_Parse_ref (url ks) endpoint) in
  let* body := http_Post (url_String u) "application/json" data in
  let* sig := ret (orElse (Unmarshal_signResponse body) encoding_json) in
  if decide (sig = "") then ret (Err (errors_New "missing signature"))
  else
    let* bytes := ret (orElse (hex.DecodeString sig) encoding_hex) in
    ret (orElse (BLSSignatureFromBytes bytes) eth2_types).

End WithLibs.
End KeyServiceCached.

(* ===================================================================== *)
(** ** key_service.go, the revision that holds the URL only *)
(* ===================================================================== *)

Module KeyServiceURL.
Section WithLibs.
Context `{Libs}.

Record keyService : Type := { URL : url_URL }.

Record signRequest : Type := {
  Payload : string;   (* `json:"payload"` *)
  Domain : Z          (* `json:"domain"` *)
}.

Definition Marshal_signRequest (r : signRequest) : document :=
  Doc (JObject [("payload", JString (utf8.coerce (Payload r)));
                ("domain", JNumber (Domain r) 0)]).

(** [publicKeyResponse] has the one field [PubKey], tagged "pk". *)
Definition Unmarshal_publicKeyResponse (body : document) : option string :=
  json.Unmarshal_string_struct "pk" body.

Definition Unmarshal_signResponse (body : document) : option string :=
  json.Unmarshal_string_struct "sign" body.

Definition newKeyService (u : url_URL) : outcome keyService :=
  if negb (url_IsAbs u) then
    Err (fmt_Errorf ("keyService URL '" +:+ url_String u +:+ "' is not absolute"))
  else
    Ok {| URL := u |}.

Definition PublicKey (ks : keyService) : NetM etypes_PublicKey :=
  let* body := http_Get (url_String (URL ks)) in
  let* pk := ret (orElse (Unmarshal_publicKeyResponse body) encoding_json) in
  if decide (pk = "") then ret (Err (errors_New "missing public key"))
  else
    let* bytes := ret (orElse (hex.DecodeString pk) encoding_hex) in
    ret (orElse (BLSPublicKeyFromBytes bytes) eth2_types).

Definition Sign (ks : keyService) (payload : list byte) (domain : Z)
    : NetM etypes_Signature :=
  let r := {| Payload := string_of_list_byte payload; Domain := domain |} in
  let data := Marshal_signRequest r in
  let endpoint := "sign" in
  let* u := ret (url_Parse_ref (Some (URL ks)) endpoint) in
  let* body := http_Post (url_String u) "application/json" data in
  let* sig := ret (orElse (Unmarshal_signResponse body) encoding_json) in
  if decide (sig = "") then ret (Err (errors_New "missing signature"))
  else
    let* bytes := ret (orElse (hex.DecodeString sig) encoding_hex) in
    ret (orElse (BLSSignatureFromBytes bytes) eth2_types).

End WithLibs.
End KeyServiceURL.

(* ===================================================================== *)
(** ** key_service.go, the revision that is built from a string *)
(* ===================================================================== *)

(** This is the revision [account.go] is written against: [newKeyService]
    takes the raw string, the field is [URL], and [Sign] takes the key and
    the payload.  Its [Sign] applies [url.Parse] to the key itself, which
    has no text in Go; the text it stands for is the parameter [key_text].
    It decodes the response where the later revisions first read its
    body. *)
Module KeyServiceDraft.
Section WithLibs.
Context `{Libs}.
Variable key_text : etypes_PublicKey -> string.

Record keyService : Type := { URL : url_URL }.

(** [signRequest] has the one field [Payload []byte], tagged "payload":
    a slice is written in base64 (a nil one, which the model does not
    tell from the empty one, as [null]). *)
Definition Marshal_signRequest (payload : list byte) : document :=
  Doc (JObject [("payload", JString (base64.EncodeToString payload))]).

(** [signResponse] has the one field [Signature], tagged "signature". *)
Definition Unmarshal_signResponse (body : document) : option string :=
  json.Unmarshal_string_struct "signature" body.

(** [newKeyService(raw string)]: whatever parses is accepted. *)
Definition newKeyService (raw : string) : outcome keyService :=
  match url_Parse raw with
  | None => Err (lib_error net_url)
  | Some u => Ok {| URL := u |}
  end.

Definition Sign (ks : keyService) (key : option etypes_PublicKey)
    (payload : list byte) : NetM (list byte) :=
  let data := Marshal_signRequest payload in
  let* k := ret (match key with Some k => Ok k | None => Panic end) in
  let* path := ret (orElse (url_Parse (key_text k)) net_url) in
  let* body := http_Post (url_String (url_ResolveReference (URL ks) path))
                         "application/json" data in
  let* sig := ret (orElse (Unmarshal_signResponse body) encoding_json) in
  ret (orElse (hex.DecodeString sig) encoding_hex).

End WithLibs.
End KeyServiceDraft.

(* ===================================================================== *)
(** ** account.go *)
(* ===================================================================== *)

(** The three places where [account.go] touches its key service:
    [a.keyService.URL.String()], [newKeyService(url)] on the string read
    from the record, and [a.keyService.Sign(a.publicKey, data)]. *)
Class KeyService `{Libs} : Type := {
  ks_keyService : Type;
  ks_Signature : Type;
  ks_URL_String : ks_keyService -> string;
  ks_newKeyService : string -> outcome ks_keyService;
  ks_Sign : ks_keyService -> option etypes_PublicKey -> list byte -> NetM ks_Signature
}.

(** The revision built from a string fits.  Its [Sign] returns a
    [[]byte], which [account.go] returns where it declares an
    [etypes.Signature]: the result of the account's [Sign] is taken as
    what the key service returns, [ks_Signature]. *)
Definition draftKeyService `{Libs} (key_text : etypes_PublicKey -> string) : KeyService :=
  {| ks_keyService := KeyServiceDraft.keyService;
     ks_Signature := list byte;
     ks_URL_String := fun ks => url_String (KeyServiceDraft.URL ks);
     ks_newKeyService := KeyServiceDraft.newKeyService;
     ks_Sign := KeyServiceDraft.Sign key_text |}.

Module Account.
Section WithLibs.
Context `{Libs} `{!KeyService}.

(** The struct, without its mutex: the embedding is sequential, and every
    method that takes the mutex releases it on return. *)
Record account : Type := {
  id : UUID;
  name : string;
  publicKey : option etypes_PublicKey;
  version : Z;
  wallet : option Wallet;
  encryptor : option Encryptor;
  unlocked : bool;
  keyService : option ks_keyService
}.

Definition set_id (x : UUID) (a : account) : account :=
  {| id := x; name := name a; publicKey := publicKey a; version := version a;
     wallet := wallet a; encryptor := encryptor a; unlocked := unlocked a;
     keyService := keyService a |}.

Definition set_name (x : string) (a : account) : account :=
  {| id := id a; name := x; publicKey := publicKey a; version := version a;
     wallet := wallet a; encryptor := encryptor a; unlocked := unlocked a;
     keyService := keyService a |}.

Definition set_publicKey (x : option etypes_PublicKey) (a : account) : account :=
  {| id := id a; name := name a; publicKey := x; version := version a;
     wallet := wallet a; encryptor := encryptor a; unlocked := unlocked a;
     keyService := keyService a |}.

Definition set_version (x : Z) (a : account) : account :=
  {| id := id a; name := name a; publicKey := publicKey a; version := x;
     wallet := wallet a; encryptor := encryptor a; unlocked := unlocked a;
     keyService := keyService a |}.

Definition set_wallet (x : option Wallet) (a : account) : account :=
  {| id := id a; name := name a; publicKey := publicKey a; version := version a;
     wallet := x; encryptor := encryptor a; unlocked := unlocked a;
     keyService := keyService a |}.

Definition set_encryptor (x : option Encryptor) (a : account) : account :=
  {| id := id a; name := name a; publicKey := publicKey a; version := version a;
     wallet := wallet a; encryptor := x; unlocked := unlocked a;
     keyService := keyService a |}.

Definition set_unlocked (x : bool) (a : account) : account :=
  {| id := id a; name := name a; publicKey := publicKey a; version := version a;
     wallet := wallet a; encryptor := encryptor a; unlocked := x;
     keyService := keyService a |}.

Definition set_keyService (x : option ks_keyService) (a : account) : account :=
  {| id := id a; name := name a; publicKey := publicKey a; version := version a;
     wallet := wallet a; encryptor := encryptor a; unlocked := unlocked a;
     keyService := x |}.

(** [newAccount()]: every field but the mutex has its zero value. *)
Definition newAccount : account :=
  {| id := uuid_Nil; name := ""; publicKey := None; version := 0;
     wallet := None; encryptor := None; unlocked := false;
     keyService := None |}.

Definition MarshalJSON (a : account) : outcome document :=
  match publicKey a, keyService a with
  | Some pk, Some ks =>
      Ok (json.Marshal_map
            (<["keyService" := json.GoString (ks_URL_String ks)]>
               (<["version" := json.GoUint (version a)]>
                  (<["pubkey" := json.GoString (hex.EncodeToString (pk_Marshal pk))]>
                     (<["name" := json.GoString (name a)]>
                        (<["uuid" := json.GoString (uuid_String (id a))]> ∅))))))
  | _, _ => Panic
  end.

(** [UnmarshalJSON] reads one field after the other and returns at the
    first that is missing or wrong; what it has assigned by then stays
    assigned.  A [step] is one of its blocks. *)
Definition step : Type := account -> account * outcome unit.

Definition fail (msg : string) : step := fun a => (a, Err (errors_New msg)).

Definition andThen (s t : step) : step :=
  fun a =>
    match s a with
    | (a', Ok _) => t a'
    | (a', Err e) => (a', Err e)
    | (a', Panic) => (a', Panic)
    end.

(** The body shared by the "uuid" branch and the "id" branch. *)
Definition assignID (val : jvalue) : step :=
  fun a =>
    match json.as_string val with
    | None => (a, Err (errors_New "account ID invalid"))
    | Some idStr =>
        match uuid_Parse idStr with
        | None => (a, Err (lib_error google_uuid))
        | Some x => (set_id x a, Ok tt)
        end
    end.

Definition unmarshalID (v : gmap string jvalue) : step :=
  match v !! "uuid" with
  | Some val => assignID val
  | None =>
      (* Used to be ID; remove with V2.0 *)
      match v !! "id" with
      | Some val => assignID val
      | None => fail "account ID missing"
      end
  end.

Definition unmarshalName (v : gmap string jvalue) : step :=
  match v !! "name" with
  | Some val =>
      match json.as_string val with
      | None => fail "account name invalid"
      | Some x => fun a => (set_name x a, Ok tt)
      end
  | None => fail "account name missing"
  end.

Definition unmarshalPubkey (v : gmap string jvalue) : step :=
  match v !! "pubkey" with
  | Some val =>
      match json.as_string val with
      | None => fail "account pubkey invalid"
      | Some pkStr =>
          match hex.DecodeString pkStr with
          | None => fun a => (a, Err (lib_error encoding_hex))
          | Some bytes =>
              (* a.publicKey, err = ...: the field is assigned either way *)
              match BLSPublicKeyFromBytes bytes with
              | None => fun a => (set_publicKey None a, Err (lib_error eth2_types))
              | Some pk => fun a => (set_publicKey (Some pk) a, Ok tt)
              end
          end
      end
  | None => fail "account pubkey missing"
  end.

Definition unmarshalVersion (v : gmap string jvalue) : step :=
  match v !! "version" with
  | Some val =>
      match json.as_float64 val with
      | None => fail "account version invalid"
      | Some f => fun a => (set_version (go_uint f) a, Ok tt)
      end
  | None => fail "account version missing"
  end.

(** Only support keystorev4 at current... *)
Definition selectEncryptor : step :=
  fun a =>
    if version a =? 4 then (set_encryptor (Some keystorev4_New) a, Ok tt)
    else (a, Err (errors_New "unsupported keystore version")).

Definition unmarshalKeyService (v : gmap string jvalue) : step :=
  match v !! "keyService" with
  | Some val =>
      match json.as_string val with
      | None => fail "account keyService invalid"
      | Some url =>
          match ks_newKeyService url with
          | Ok ks => fun a => (set_keyService (Some ks) a, Ok tt)
          | Err e => fun a => (a, Err e)
          | Panic => fun a => (a, Panic)
          end
      end
  | None => fail "account keyService missing"
  end.

Definition UnmarshalJSON (a : account) (data : document) : account * outcome unit :=
  match json.Unmarshal_map data with
  | None => (a, Err (lib_error encoding_json))
  | Some v =>
      andThen (unmarshalID v)
        (andThen (unmarshalName v)
           (andThen (unmarshalPubkey v)
              (andThen (unmarshalVersion v)
                 (andThen selectEncryptor (unmarshalKeyService v))))) a
  end.

Definition ID (a : account) : UUID := id a.

Definition Name (a : account) : string := name a.

(** [PublicKey()]: a copy made through the bytes, the error dropped. *)
Definition PublicKey (a : account) : outcome (option etypes_PublicKey) :=
  match publicKey a with
  | None => Panic
  | Some pk => Ok (BLSPublicKeyFromBytes (pk_Marshal pk))
  end.

(** [PrivateKey()] is not embedded: its body is the one statement
    [return nil], which gives one value where the signature asks for two
    results, so the source fixes no behaviour for it. *)

Definition Lock (a : account) : account := set_unlocked false a.

Definition Unlock (a : account) (passphrase : list byte) : account * outcome unit :=
  (set_unlocked true a, Ok tt).

Definition IsUnlocked (a : account) : bool := unlocked a.

Definition Path (a : account) : string := "".

(** [Sign]: the receiver comes back as the method leaves it. *)
Definition Sign (a : account) (data : list byte) (domain : Z)
    : Net -> outcome ks_Signature * account * Net :=
  fun n =>
    if negb (IsUnlocked a) then
      (Err (errors_New "cannot sign when account is locked"), a, n)
    else
      match keyService a with
      | None => (Panic, a, n)
      | Some ks =>
          let '(r, n') := ks_Sign ks (publicKey a) data n in
          (r, a, n')
      end.

(** [deserializeAccount(w, data)]: [json.Unmarshal(data, a)] hands [data]
    to [a.UnmarshalJSON]. *)
Definition deserializeAccount (w : Wallet) (data : document) : outcome account :=
  let a := set_encryptor (wallet_encryptor w) (set_wallet (Some w) newAccount) in
  match UnmarshalJSON a data with
  | (a', Ok _) => Ok a'
  | (_, Err e) => Err e
  | (_, Panic) => Panic
  end.

End WithLibs.
End Account.

(* ===================================================================== *)
(** ** Notions used in the statements *)
(* ===================================================================== *)

Section Notions.
Context `{Libs} `{!KeyService}.
Import Account.

(** A block that leaves a field of the account as it was. *)
Definition preserves {A} (f : account -> A) (s : step) : Prop :=
  forall a, f (fst (s a)) = f a.

(** A block that never reports a missing identity. *)
Definition not_ID_missing (s : step) : Prop :=
  forall a, snd (s a) <> Err (errors_New "account ID missing").

(** The blocks of [UnmarshalJSON] that come before the version: the
    identity, the name and the public key. *)
Definition beforeVersion (v : gmap string jvalue) : step :=
  andThen (unmarshalID v) (andThen (unmarshalName v) (unmarshalPubkey v)).

(** The blocks that come after the identity. *)
Definition afterID (v : gmap string jvalue) : step :=
  andThen (unmarshalName v)
    (andThen (unmarshalPubkey v)
       (andThen (unmarshalVersion v)
          (andThen selectEncryptor (unmarshalKeyService v)))).

(** The map that [MarshalJSON] fills, as the decoder gives it back. *)
Definition record_of (u n p : string) (ver : Z) (k : string) : gmap string jvalue :=
  <["keyService" := JString k]>
    (<["version" := JNumber ver 0]>
       (<["pubkey" := JString p]>
          (<["name" := JString n]>
             (<["uuid" := JString u]> ∅)))).

(** What [Sign] makes of the answer to its request. *)
Definition signature_of (r : response) : outcome etypes_Signature :=
  match r with
  | TransportError e => Err e
  | ReadError _ e => Err e
  | Response _ body =>
      match json.Unmarshal_string_struct "sign" body with
      | None => Err (lib_error encoding_json)
      | Some sig =>
          if decide (sig = "") then Err (errors_New "missing signature")
          else
            match hex.DecodeString sig with
            | None => Err (lib_error encoding_hex)
            | Some bytes => orElse (BLSSignatureFromBytes bytes) eth2_types
            end
      end
  end.

(** The request of the revision that keeps the key. *)
Definition sign_request (target : url_URL) (payload : list byte) (domain : Z) : request :=
  {| req_method := POST;
     req_url := url_String target;
     req_contentType := "application/json";
     req_body := Some (Doc (JObject
       [("payload", JString (utf8.coerce (string_of_list_byte payload)));
        ("domain", JNumber domain 0)])) |}.

End Notions.

(* ===================================================================== *)
(** ** A reference instance of the packages *)
(* ===================================================================== *)

(** Small stand-ins that satisfy the laws, to run the definitions on the
    values of the repository's tests.  A URL is its text and is absolute
    when it has a scheme; an identifier is written undashed, a form that
    [uuid.Parse] reads as well; a public key is any 48 bytes, a signature
    any 96. *)
Module Ref.

Definition URL_IsAbs (u : string) : bool :=
  match index 0 "://" u with
  | Some (S _) => true
  | _ => false
  end.

Definition URL_ResolveReference (u r : string) : string :=
  match r with
  | String "/" _ => u +:+ r
  | _ => u +:+ "/" +:+ r
  end.

Definition PublicKey : Type := { bs : list byte | length bs = 48%nat }.

Definition PublicKeyFromBytes (bs : list byte) : option PublicKey :=
  match decide (length bs = 48%nat) with
  | left ok => Some (exist _ bs ok)
  | right _ => None
  end.

Definition SignatureFromBytes (bs : list byte) : option (list byte) :=
  if decide (length bs = 96%nat) then Some bs else None.

Definition libs : Libs := {|
  url_URL := string;
  url_Parse := Some;
  url_String := fun u => u;
  url_IsAbs := URL_IsAbs;
  url_ResolveReference := URL_ResolveReference;
  UUID := list byte;
  uuid_Nil := repeat x00 16;
  uuid_String := hex.EncodeToString;
  uuid_Parse := hex.DecodeString;
  etypes_PublicKey := PublicKey;
  pk_Marshal := @proj1_sig _ _;
  BLSPublicKeyFromBytes := PublicKeyFromBytes;
  etypes_Signature := list byte;
  BLSSignatureFromBytes := SignatureFromBytes;
  etypes_PrivateKey := list byte;
  Encryptor := string;
  keystorev4_New := "keystore";
  Wallet := option string;
  wallet_encryptor := fun w => w;
  json_field_match := String.eqb;
  uint_unrepresentable := fun _ => 2 ^ 63
|}.

#[local] Existing Instance libs.

(** The draft key service, with the key written in hex. *)
Definition keyService : KeyService :=
  draftKeyService (fun k => hex.EncodeToString (pk_Marshal k)).

(** The values of the tests. *)
Definition pubKeyStr : string :=
  "a99a76ed7796f7be22d5b7e85deeb7c5677e88e511e0b337618f8c4eb61349b4bf2d153f649f7b53359fe8b94a38e44c".

Definition signatureStr : string :=
  "b27173efced932d1e0decdbb872512d4d123835629ffd907211ffe74a86a05dc6be4a8c15f886a48daed4a975f5fffe9153297bcda99adf84b351a8d514ea7f0607ff2e678c1600381fa6beb5fbe1a864924a3e69bb938caeef2de673988265e".

Definition idStr : string := "c9958061996347fa8c415ac9e7b8a442".

Definition bytes_of_hex (s : string) : list byte :=
  match hex.DecodeString s with
  | Some bs => bs
  | None => []
  end.

Definition pubKey : PublicKey := exist _ (bytes_of_hex pubKeyStr) eq_refl.

Definition base : string := "http://localhost:8080".

Definition cached : @KeyServiceCached.keyService libs :=
  {| KeyServiceCached.url := Some base;
     KeyServiceCached.publicKey := Some pubKey;
     KeyServiceCached.version := 1 |}.

Definition urlOnly : @KeyServiceURL.keyService libs :=
  {| KeyServiceURL.URL := base |}.

Definition id1 : @UUID libs := bytes_of_hex idStr.

Definition draft : @ks_keyService libs keyService :=
  {| KeyServiceDraft.URL := base : @url_URL libs |}.

Definition account1 : @Account.account libs keyService :=
  {| Account.id := id1;
     Account.name := "Account 1";
     Account.publicKey := Some pubKey;
     Account.version := 4;
     Account.wallet := None;
     Account.encryptor := Some "keystore";
     Account.unlocked := false;
     Account.keyService := Some draft |}.

(** An account record, with the key of the identity and the version left
    open. *)
Definition members (idKey : string) (ver : jvalue) : list (string * jvalue) :=
  [(idKey, JString idStr);
   ("name", JString "Account 1");
   ("pubkey", JString pubKeyStr);
   ("version", ver);
   ("keyService", JString base)].

Definition record (idKey : string) (ver : jvalue) : document :=
  Doc (JObject (members idKey ver)).

(** What an account, or a key, shows of itself. *)
Definition key_hex (k : option PublicKey) : option string :=
  match k with
  | Some k => Some (hex.EncodeToString (proj1_sig k))
  | None => None
  end.

Definition account_summary (a : @Account.account libs keyService)
    : string * string * option string * Z * option string * option string :=
  (hex.EncodeToString (Account.id a), Account.name a,
   key_hex (Account.publicKey a), Account.version a, Account.encryptor a,
   match Account.keyService a with
   | Some ks => Some (KeyServiceDraft.URL ks)
   | None => None
   end).

(** A peer that is never reached, and one that answers every request with
    the same body. *)
Definition silent : Net :=
  {| peer := fun _ _ => TransportError (lib_error net_http); sent := [] |}.

Definition answering (body : document) : Net :=
  {| peer := fun _ _ => Response 200 body; sent := [] |}.

End Ref.

(* ===================================================================== *)
(** ** Notions used in the further statements *)
(* ===================================================================== *)

(** A call that returns, with a value or with an error: it does not panic. *)
Definition returns {A} (x : outcome A) : Prop :=
  match x with
  | Ok _ | Err _ => True
  | Panic => False
  end.

Section Calls.
Context `{Libs} `{!KeyService}.
Import Account.

(** The two calls that write the lock flag, and a history of them. *)
Inductive call : Type :=
| CallLock
| CallUnlock (passphrase : list byte).

Definition perform (c : call) (a : account) : account :=
  match c with
  | CallLock => Lock a
  | CallUnlock passphrase => fst (Unlock a passphrase)
  end.

Definition perform_all (cs : list call) (a : account) : account :=
  fold_left (fun a c => perform c a) cs a.

(** The flag that a history leaves, starting from [b]. *)
Definition flag_after (cs : list call) (b : bool) : bool :=
  fold_left (fun _ c => match c with CallLock => false | CallUnlock _ => true end) cs b.

(** A block that writes the key service only when it succeeds. *)
Definition keyService_on_success (s : step) : Prop :=
  forall a, snd (s a) = Ok tt \/ keyService (fst (s a)) = keyService a.

End Calls.

(** More values for the tests: the record of a client, and the client as
    it is read from it. *)
Module RefMore.

Definition clientRecord (url : string) (ver : jvalue) : document :=
  Doc (JObject [("url", JString url);
                ("pubkey", JString Ref.pubKeyStr);
                ("version", ver)]).

Definition emptyClient : @KeyServiceCached.keyService Ref.libs :=
  {| KeyServiceCached.url := None;
     KeyServiceCached.publicKey := None;
     KeyServiceCached.version := 0 |}.

Definition cachedSummary (ks : @KeyServiceCached.keyService Ref.libs)
    : option string * option string * Z :=
  (KeyServiceCached.url ks, Ref.key_hex (KeyServiceCached.publicKey ks),
   KeyServiceCached.version ks).

End RefMore.

(** A second instance, in which a URL prints escaped as [URL.String]
    prints a path: a space is written [%20].  The rest is as in [Ref]. *)
Module RefEscaped.

Fixpoint escape (s : string) : string :=
  match s with
  | EmptyString => EmptyString
  | String c rest =>
      if Ascii.eqb c " " then "%20" +:+ escape rest else String c (escape rest)
  end.

Definition libs : Libs := {|
  url_URL := string;
  url_Parse := Some;
  url_String := escape;
  url_IsAbs := Ref.URL_IsAbs;
  url_ResolveReference := Ref.URL_ResolveReference;
  UUID := list byte;
  uuid_Nil := repeat x00 16;
  uuid_String := hex.EncodeToString;
  uuid_Parse := hex.DecodeString;
  etypes_PublicKey := Ref.PublicKey;
  pk_Marshal := @proj1_sig _ _;
  BLSPublicKeyFromBytes := Ref.PublicKeyFromBytes;
  etypes_Signature := list byte;
  BLSSignatureFromBytes := Ref.SignatureFromBytes;
  etypes_PrivateKey := list byte;
  Encryptor := string;
  keystorev4_New := "keystore";
  Wallet := option string;
  wallet_encryptor := fun w => w;
  json_field_match := String.eqb;
  uint_unrepresentable := fun _ => 2 ^ 63
|}.

End RefEscaped.

(* ===================================================================== *)
(** * Properties *)
(* ===================================================================== *)

(** ** encoding/hex *)

Lemma hex_byte_roundtrip (b : byte) :
  hex.fromHexChar (hex.digit (Byte.to_N b / 16)) = Some (Byte.to_N b / 16)%N /\
  hex.fromHexChar (hex.digit (Byte.to_N b mod 16)) = Some (Byte.to_N b mod 16)%N /\
  Byte.of_N (Byte.to_N b / 16 * 16 + Byte.to_N b mod 16) = Some b.
Proof. destruct b; vm_compute; auto. Qed.

(** What [%x] writes, [hex.DecodeString] reads back. *)
Lemma hex_DecodeString_EncodeToString (bs : list byte) :
  hex.DecodeString (hex.EncodeToString bs) = Some bs.
Proof.
  induction bs as [|b bs IH]; [reflexivity|].
  destruct (hex_byte_roundtrip b) as (Hh & Hl & Hb).
  cbn [hex.EncodeToString hex.DecodeString].
  cbv zeta. rewrite Hh, Hl, Hb, IH. reflexivity.
Qed.

Example hex_EncodeToString_abcd :
  hex.EncodeToString (list_byte_of_string "abcd") = "61626364".
Proof. reflexivity. Qed.

Example hex_DecodeString_odd : hex.DecodeString "abc" = None.
Proof. reflexivity. Qed.

Example hex_DecodeString_upper :
  hex.DecodeString "4A6f" = Some (list_byte_of_string "Jo").
Proof. reflexivity. Qed.

Example base64_EncodeToString_abcd :
  base64.EncodeToString (list_byte_of_string "abcd") = "YWJjZA==".
Proof. reflexivity. Qed.

(** ** The UTF-8 coercion *)

Lemma utf8_first_sizes b sz lo hi :
  utf8.first b = Some (sz, lo, hi) -> sz = 2%nat \/ sz = 3%nat \/ sz = 4%nat.
Proof.
  unfold utf8.first.
  repeat match goal with |- context [if ?c then _ else _] => destruct c end;
    intros [= <- <- <-]; auto.
Qed.

Lemma utf8_coerce_RuneError (t : string) :
  utf8.coerce (utf8.RuneError +:+ t) = utf8.RuneError +:+ utf8.coerce t.
Proof. reflexivity. Qed.

Lemma utf8_coerce_idempotent_upto (n : nat) :
  forall s, (String.length s <= n)%nat -> utf8.coerce (utf8.coerce s) = utf8.coerce s.
Proof.
  induction n as [|n IH]; intros s Hlen.
  - destruct s; [reflexivity|cbn in Hlen; lia].
  - destruct s as [|b rest]; [reflexivity|]. cbn [String.length] in Hlen.
    assert (Hbad : utf8.coerce (utf8.RuneError +:+ utf8.coerce rest) =
                   utf8.RuneError +:+ utf8.coerce rest).
    { rewrite utf8_coerce_RuneError, IH by lia. reflexivity. }
    cbn [utf8.coerce].
    destruct (N_of_ascii b <? 128)%N eqn:Hascii.
    { cbn [utf8.coerce]. rewrite Hascii, IH by lia. reflexivity. }
    destruct (utf8.first (N_of_ascii b)) as [[[sz lo] hi]|] eqn:Hfirst; [|exact Hbad].
    destruct (utf8_first_sizes _ _ _ _ Hfirst) as [->|[->| ->]].
    + destruct rest as [|c1 r1]; [exact Hbad|].
      destruct (utf8.within lo hi c1) eqn:H1; [|exact Hbad].
      cbn [utf8.coerce]. rewrite Hascii, Hfirst, H1, IH by (cbn in Hlen; lia). reflexivity.
    + destruct rest as [|c1 [|c2 r2]]; try exact Hbad.
      destruct (utf8.within lo hi c1 && utf8.cont c2) eqn:H1; [|exact Hbad].
      cbn [utf8.coerce]. rewrite Hascii, Hfirst, H1, IH by (cbn in Hlen; lia). reflexivity.
    + destruct rest as [|c1 [|c2 [|c3 r3]]]; try exact Hbad.
      destruct (utf8.within lo hi c1 && utf8.cont c2 && utf8.cont c3) eqn:H1; [|exact Hbad].
      cbn [utf8.coerce]. rewrite Hascii, Hfirst, H1, IH by (cbn in Hlen; lia). reflexivity.
Qed.

(** Text that has been coerced is valid: coercing it again changes
    nothing. *)
Lemma utf8_coerce_idempotent (s : string) : utf8.coerce (utf8.coerce s) = utf8.coerce s.
Proof. exact (utf8_coerce_idempotent_upto (String.length s) s (le_n _)). Qed.

(** ASCII is valid as it is. *)
Lemma utf8_coerce_ascii (s : string) : utf8.is_ascii s = true -> utf8.coerce s = s.
Proof.
  induction s as [|b rest IH]; [reflexivity|]. cbn [utf8.is_ascii utf8.coerce].
  intros [Hb Hrest]%andb_prop. rewrite Hb, IH by assumption. reflexivity.
Qed.

Lemma hex_digit_ascii (n : N) : (N_of_ascii (hex.digit n) <? 128)%N = true.
Proof.
  unfold hex.digit. generalize (N.to_nat n). intros k.
  do 16 (destruct k as [|k]; [reflexivity|]). reflexivity.
Qed.

Lemma hex_EncodeToString_ascii (bs : list byte) :
  utf8.is_ascii (hex.EncodeToString bs) = true.
Proof.
  induction bs as [|b bs IH]; [reflexivity|].
  cbn [hex.EncodeToString utf8.is_ascii]. cbv zeta.
  rewrite !hex_digit_ascii, IH. reflexivity.
Qed.

(** What [%x] writes is stored in JSON as it is. *)
Lemma hex_EncodeToString_text (bs : list byte) :
  utf8.coerce (hex.EncodeToString bs) = hex.EncodeToString bs.
Proof. apply utf8_coerce_ascii, hex_EncodeToString_ascii. Qed.

(** ** The blocks of [UnmarshalJSON] *)

Section AccountBlocks.
Context `{Libs} `{!KeyService}.
Import Account.

Lemma set_unlocked_same (a : account) : set_unlocked (unlocked a) a = a.
Proof. destruct a; reflexivity. Qed.

Lemma andThen_preserves {A} (f : account -> A) (s t : step) :
  preserves f s -> preserves f t -> preserves f (andThen s t).
Proof.
  intros Hs Ht a. unfold andThen. specialize (Hs a).
  destruct (s a) as [a' [[]|e|]]; cbn in *; [|assumption..].
  rewrite Ht. assumption.
Qed.

Lemma fail_preserves {A} (f : account -> A) msg : preserves f (fail msg).
Proof. intros a; reflexivity. Qed.

Lemma unmarshalID_preserves {A} (f : account -> A) v :
  (forall x a, f (set_id x a) = f a) -> preserves f (unmarshalID v).
Proof.
  intros Hset.
  assert (Hassign : forall val, preserves f (assignID val)).
  { intros val a. unfold assignID.
    destruct (json.as_string val) as [s|]; [|reflexivity].
    destruct (uuid_Parse s); [apply Hset|reflexivity]. }
  unfold unmarshalID.
  destruct (v !! "uuid"); [apply Hassign|].
  destruct (v !! "id"); [apply Hassign|apply fail_preserves].
Qed.

Lemma unmarshalName_preserves {A} (f : account -> A) v :
  (forall x a, f (set_name x a) = f a) -> preserves f (unmarshalName v).
Proof.
  intros Hset. unfold unmarshalName.
  destruct (v !! "name") as [val|]; [|apply fail_preserves].
  destruct (json.as_string val); [intros a; apply Hset|apply fail_preserves].
Qed.

Lemma unmarshalPubkey_preserves {A} (f : account -> A) v :
  (forall x a, f (set_publicKey x a) = f a) -> preserves f (unmarshalPubkey v).
Proof.
  intros Hset. unfold unmarshalPubkey.
  destruct (v !! "pubkey") as [val|]; [|apply fail_preserves].
  destruct (json.as_string val) as [s|]; [|apply fail_preserves].
  destruct (hex.DecodeString s) as [bs|]; [|intros a; reflexivity].
  destruct (BLSPublicKeyFromBytes bs); intros a; apply Hset.
Qed.

Lemma unmarshalVersion_preserves {A} (f : account -> A) v :
  (forall x a, f (set_version x a) = f a) -> preserves f (unmarshalVersion v).
Proof.
  intros Hset. unfold unmarshalVersion.
  destruct (v !! "version") as [val|]; [|apply fail_preserves].
  destruct (json.as_float64 val); [intros a; apply Hset|apply fail_preserves].
Qed.

Lemma selectEncryptor_preserves {A} (f : account -> A) :
  (forall x a, f (set_encryptor x a) = f a) -> preserves f selectEncryptor.
Proof.
  intros Hset a. unfold selectEncryptor.
  destruct (version a =? 4); [apply Hset|reflexivity].
Qed.

Lemma unmarshalKeyService_preserves {A} (f : account -> A) v :
  (forall x a, f (set_keyService x a) = f a) -> preserves f (unmarshalKeyService v).
Proof.
  intros Hset. unfold unmarshalKeyService.
  destruct (v !! "keyService") as [val|]; [|apply fail_preserves].
  destruct (json.as_string val) as [s|]; [|apply fail_preserves].
  destruct (ks_newKeyService s) as [k|e|]; intros a; [apply Hset|reflexivity..].
Qed.

End AccountBlocks.

Create HintDb account_blocks discriminated.
#[local] Hint Resolve andThen_preserves fail_preserves unmarshalID_preserves
  unmarshalName_preserves unmarshalPubkey_preserves unmarshalVersion_preserves
  selectEncryptor_preserves unmarshalKeyService_preserves : account_blocks.

(** ** The account: lock, unlock, sign *)

Section AccountState.
Context `{Libs} `{!KeyService}.
Import Account.

(** [UnmarshalJSON] never touches the lock flag. *)
Lemma UnmarshalJSON_keeps_unlocked (a : account) (data : document) :
  unlocked (fst (UnmarshalJSON a data)) = unlocked a.
Proof.
  unfold UnmarshalJSON. destruct (json.Unmarshal_map data) as [v|]; [|reflexivity].
  revert a. change (preserves unlocked
    (andThen (unmarshalID v) (andThen (unmarshalName v) (andThen (unmarshalPubkey v)
      (andThen (unmarshalVersion v) (andThen selectEncryptor (unmarshalKeyService v))))))).
  auto 12 with account_blocks.
Qed.

Lemma deserializeAccount_locked (w : Wallet) (data : document) (a : account) :
  deserializeAccount w data = Ok a -> IsUnlocked a = false.
Proof.
  unfold deserializeAccount, IsUnlocked. intros Hd.
  pose proof (UnmarshalJSON_keeps_unlocked
    (set_encryptor (wallet_encryptor w) (set_wallet (Some w) newAccount)) data) as Hk.
  destruct (UnmarshalJSON _ data) as [a' [[]|e|]]; try discriminate.
  injection Hd as <-. exact Hk.
Qed.

(** C1.  A locked account does not sign: whatever the data and the
    domain, [Sign] returns the error "cannot sign when account is locked",
    the account is as it was and nothing was sent to the key service.  The
    account made by [newAccount] is locked, and so is every account that
    [deserializeAccount] returns.  An unlocked account hands the call to
    the key service it is bound to. *)
Theorem Sign_locked_or_forwarded :
  (forall (a : account) data domain n,
      IsUnlocked a = false ->
      Sign a data domain n =
        (Err (errors_New "cannot sign when account is locked"), a, n)) /\
  IsUnlocked newAccount = false /\
  (forall w data a, deserializeAccount w data = Ok a -> IsUnlocked a = false) /\
  (forall (a : account) ks data domain n,
      IsUnlocked a = true ->
      keyService a = Some ks ->
      Sign a data domain n =
        (fst (ks_Sign ks (publicKey a) data n), a,
         snd (ks_Sign ks (publicKey a) data n))).
Proof.
  split; [|split; [|split]].
  - intros a data domain n Hl. unfold Sign. rewrite Hl. reflexivity.
  - reflexivity.
  - apply deserializeAccount_locked.
  - intros a ks data domain n Hu Hk. unfold Sign. rewrite Hu, Hk. cbn.
    destruct (ks_Sign ks (publicKey a) data n); reflexivity.
Qed.

(** Whatever the key service, the domain given to [Sign] has no part in
    the call. *)
Lemma Sign_same_for_every_domain (a : account) (data : list byte) (d1 d2 : Z) (n : Net) :
  Sign a data d1 n = Sign a data d2 n.
Proof. reflexivity. Qed.

(** C8.  [Unlock] returns no error and leaves the account unlocked,
    whatever the passphrase; [Lock] on a locked account and [Unlock] on an
    unlocked one leave the account exactly as it was. *)
Theorem Lock_Unlock_idempotent :
  (forall (a : account) passphrase,
      snd (Unlock a passphrase) = Ok tt /\
      IsUnlocked (fst (Unlock a passphrase)) = true) /\
  (forall a : account, IsUnlocked a = false -> Lock a = a) /\
  (forall (a : account) passphrase,
      IsUnlocked a = true -> fst (Unlock a passphrase) = a) /\
  (forall a : account, Lock (Lock a) = Lock a) /\
  (forall (a : account) p q,
      fst (Unlock (fst (Unlock a p)) q) = fst (Unlock a p)).
Proof.
  repeat split.
  - intros a Hl. unfold Lock, IsUnlocked in *. rewrite <- Hl. apply set_unlocked_same.
  - intros a p Hu. unfold Unlock, IsUnlocked in *. cbn. rewrite <- Hu.
    apply set_unlocked_same.
Qed.

End AccountState.

(** C2.  [Sign] passes the key and the data to the key service and
    nothing else.  With the key service that is built from a string, the
    unlocked account sends one request whose body is
    [{"payload": <base64 of the data>}]: it has no "domain" member, and
    another domain gives the same call. *)
Theorem Sign_ignores_domain `{Libs} (key_text : etypes_PublicKey -> string) :
  let KS := draftKeyService key_text in
  forall (a : Account.account) ks pk path data domain (n : Net),
    Account.IsUnlocked a = true ->
    Account.keyService a = Some ks ->
    Account.publicKey a = Some pk ->
    url_Parse (key_text pk) = Some path ->
    sent (snd (Account.Sign a data domain n)) =
      (sent n ++
       [ {| req_method := POST;
            req_url := url_String (url_ResolveReference (KeyServiceDraft.URL ks) path);
            req_contentType := "application/json";
            req_body :=
              Some (Doc (JObject [("payload", JString (base64.EncodeToString data))])) |} ])%list /\
    forall domain', Account.Sign a data domain' n = Account.Sign a data domain n.
Proof.
  intros KS a ks pk path data domain n Hu Hks Hpk Hpath.
  split; [|intros domain'; apply Sign_same_for_every_domain].
  unfold Account.Sign. rewrite Hu, Hks, Hpk. cbn [negb ks_Sign KS draftKeyService].
  unfold KeyServiceDraft.Sign, bind, ret, orElse. rewrite Hpath.
  unfold http_Post, roundTrip, KeyServiceDraft.Marshal_signRequest.
  match goal with
  | |- context [peer n (sent n) ?r] =>
      destruct (peer n (sent n) r) as [e|st e|st body]
  end; try reflexivity.
  destruct (KeyServiceDraft.Unmarshal_signResponse body); reflexivity.
Qed.

(** ** The key-service client *)

Section KeyServiceClient.
Context `{Libs}.

(** C4, as amended.  [newKeyService] on an absolute URL succeeds and the
    client holds that URL unchanged; on a URL that is not absolute it
    fails, and the message is "keyService URL '<T>' is not absolute" where
    [T] is the text that the URL prints, [url.String()]: the literal
    input when the input is that text, and not otherwise.  Both revisions
    that take a URL agree. *)
Theorem newKeyService_absolute (u : url_URL) :
  (url_IsAbs u = true ->
     KeyServiceCached.newKeyService u =
       Ok {| KeyServiceCached.url := Some u;
             KeyServiceCached.publicKey := None;
             KeyServiceCached.version := 0 |} /\
     KeyServiceURL.newKeyService u = Ok {| KeyServiceURL.URL := u |}) /\
  (url_IsAbs u = false ->
     KeyServiceCached.newKeyService u =
       Err (errors_New ("keyService URL '" +:+ url_String u +:+ "' is not absolute")) /\
     KeyServiceURL.newKeyService u =
       Err (errors_New ("keyService URL '" +:+ url_String u +:+ "' is not absolute"))) /\
  (forall S,
     url_Parse S = Some u -> url_String u = S -> url_IsAbs u = false ->
     KeyServiceCached.newKeyService u =
       Err (errors_New ("keyService URL '" +:+ S +:+ "' is not absolute")) /\
     KeyServiceURL.newKeyService u =
       Err (errors_New ("keyService URL '" +:+ S +:+ "' is not absolute"))).
Proof.
  unfold KeyServiceCached.newKeyService, KeyServiceURL.newKeyService.
  split; [|split].
  - intros ->. split; reflexivity.
  - intros ->. split; reflexivity.
  - intros S _ <- ->. split; reflexivity.
Qed.

(** A client that [newKeyService] has just made holds no key: its
    [PublicKey] dereferences nil. *)
Lemma PublicKey_of_new_client (u : url_URL) (ks : KeyServiceCached.keyService) (n : Net) :
  KeyServiceCached.newKeyService u = Ok ks ->
  KeyServiceCached.PublicKey ks n = (Panic, n).
Proof.
  unfold KeyServiceCached.newKeyService.
  destruct (negb (url_IsAbs u)); [discriminate|]. intros [= <-]. reflexivity.
Qed.

(** A client that [UnmarshalJSON] has filled holds a URL and a key. *)
Lemma UnmarshalJSON_client_holds_key (ks ks' : KeyServiceCached.keyService) data :
  KeyServiceCached.UnmarshalJSON ks data = (ks', Ok tt) ->
  exists u pk,
    KeyServiceCached.url ks' = Some u /\ KeyServiceCached.publicKey ks' = Some pk.
Proof.
  unfold KeyServiceCached.UnmarshalJSON.
  destruct (json.Unmarshal_map data) as [v|]; [|discriminate].
  destruct (v !! "url") as [val|]; [|discriminate].
  destruct (json.as_string val) as [urlStr|]; [|discriminate].
  destruct (url_Parse urlStr) as [u|]; [|discriminate].
  destruct (v !! "pubkey") as [val'|]; [|discriminate].
  destruct (json.as_string val') as [pkStr|]; [|discriminate].
  destruct (hex.DecodeString pkStr) as [bytes|]; [|discriminate].
  destruct (BLSPublicKeyFromBytes bytes) as [pk|]; [|discriminate].
  destruct (v !! "version") as [val''|]; [|discriminate].
  destruct (json.as_float64 val'') as [f|]; [|discriminate].
  intros [= <-]. exists u, pk. split; reflexivity.
Qed.

(** One request goes out per round trip, and the peer stays the same. *)
Lemma roundTrip_sent (r : request) (n : Net) :
  sent (snd (roundTrip r n)) = (sent n ++ [r])%list /\
  peer (snd (roundTrip r n)) = peer n.
Proof.
  unfold roundTrip. destruct (peer n (sent n) r); split; reflexivity.
Qed.

(** An object whose only member is the tagged field decodes to its
    string, coerced; an object without the field, and [null], decode to
    the empty string; a text that is not JSON does not decode. *)
Lemma Unmarshal_string_struct_cases `{!LibsLaws H} (tag s : string) :
  json.Unmarshal_string_struct (utf8.coerce tag) (Doc (JObject [(tag, JString s)])) =
    Some (utf8.coerce s) /\
  json.Unmarshal_string_struct tag (Doc (JObject [])) = Some "" /\
  json.Unmarshal_string_struct tag (Doc JNull) = Some "" /\
  json.Unmarshal_string_struct tag Malformed = None.
Proof.
  repeat split. cbn. rewrite json_field_match_refl. reflexivity.
Qed.

Lemma Sign_cached_run `{!LibsLaws H} (ks : KeyServiceCached.keyService)
    pk base ref payload domain (n : Net) :
  KeyServiceCached.publicKey ks = Some pk ->
  KeyServiceCached.url ks = Some base ->
  url_Parse ("/" +:+ hex.EncodeToString (pk_Marshal pk)) = Some ref ->
  let req := sign_request (url_ResolveReference base ref) payload domain in
  KeyServiceCached.Sign ks payload domain n =
    (signature_of (peer n (sent n) req),
     {| peer := peer n; sent := sent n ++ [req] |}).
Proof.
  intros Hpk Hurl Href req.
  destruct (pk_reparse pk) as (pk' & Hcopy & Hbytes).
  unfold KeyServiceCached.Sign, KeyServiceCached.PublicKey, bind, ret.
  rewrite Hpk, Hcopy, Hbytes, Hurl. unfold url_Parse_ref. rewrite Href.
  unfold http_Post, roundTrip, KeyServiceCached.Marshal_signRequest.
  cbn [KeyServiceCached.Payload KeyServiceCached.Domain].
  fold (sign_request (url_ResolveReference base ref) payload domain). fold req.
  unfold signature_of, KeyServiceCached.Unmarshal_signResponse, orElse.
  destruct (peer n (sent n) req) as [e|st e|st body]; try reflexivity.
  destruct (json.Unmarshal_string_struct "sign" body) as [sig|]; [|reflexivity].
  destruct (decide (sig = "")); [reflexivity|].
  destruct (hex.DecodeString sig) as [bytes|]; [|reflexivity].
  destruct (BLSSignatureFromBytes bytes); reflexivity.
Qed.

(** When the path does not parse, [Sign] fails before anything is sent. *)
Lemma Sign_cached_bad_path `{!LibsLaws H} (ks : KeyServiceCached.keyService)
    pk base payload domain (n : Net) :
  KeyServiceCached.publicKey ks = Some pk ->
  KeyServiceCached.url ks = Some base ->
  url_Parse ("/" +:+ hex.EncodeToString (pk_Marshal pk)) = None ->
  KeyServiceCached.Sign ks payload domain n = (Err (lib_error net_url), n).
Proof.
  intros Hpk Hurl Href.
  destruct (pk_reparse pk) as (pk' & Hcopy & Hbytes).
  unfold KeyServiceCached.Sign, KeyServiceCached.PublicKey, bind, ret.
  rewrite Hpk, Hcopy, Hbytes, Hurl. unfold url_Parse_ref. rewrite Href. reflexivity.
Qed.

(** C5, as amended.  [Sign] of a client that holds its key and its URL
    sends one request and no more: a POST of the JSON body
    [{"payload": <text>, "domain": <domain>}] to the URL resolved from "/"
    and the hex text of the public key, where the text is the payload
    read as a string with every byte that is not part of valid UTF-8
    replaced by U+FFFD: the payload itself when it is valid UTF-8, and
    when it is ASCII in particular.  A failure of
    the transport or of reading the answer is returned as it is; an answer
    that does not decode as JSON is an error; an empty or absent "sign" is
    the error "missing signature"; a "sign" that is not hex, or whose
    bytes are not a signature, is an error; otherwise the result is the
    signature decoded from the hex text of "sign". *)
Theorem Sign_cached_protocol `{!LibsLaws H} (ks : KeyServiceCached.keyService)
    pk base ref payload domain (n : Net) :
  KeyServiceCached.publicKey ks = Some pk ->
  KeyServiceCached.url ks = Some base ->
  url_Parse ("/" +:+ hex.EncodeToString (pk_Marshal pk)) = Some ref ->
  let req :=
    {| req_method := POST;
       req_url := url_String (url_ResolveReference base ref);
       req_contentType := "application/json";
       req_body :=
         Some (Doc (JObject
           [("payload", JString (utf8.coerce (string_of_list_byte payload)));
            ("domain", JNumber domain 0)])) |} in
  let out := KeyServiceCached.Sign ks payload domain n in
  sent (snd out) = (sent n ++ [req])%list /\
  (utf8.is_ascii (string_of_list_byte payload) = true ->
   utf8.coerce (string_of_list_byte payload) = string_of_list_byte payload) /\
  (forall e, peer n (sent n) req = TransportError e -> fst out = Err e) /\
  (forall st e, peer n (sent n) req = ReadError st e -> fst out = Err e) /\
  (forall st body, peer n (sent n) req = Response st body ->
     match json.Unmarshal_string_struct "sign" body with
     | None => fst out = Err (lib_error encoding_json)
     | Some EmptyString => fst out = Err (errors_New "missing signature")
     | Some sig =>
         match hex.DecodeString sig with
         | None => fst out = Err (lib_error encoding_hex)
         | Some bytes =>
             match BLSSignatureFromBytes bytes with
             | None => fst out = Err (lib_error eth2_types)
             | Some s => fst out = Ok s
             end
         end
     end).
Proof.
  intros Hpk Hurl Href req out.
  assert (Hrun : out = (signature_of (peer n (sent n) req),
                        {| peer := peer n; sent := sent n ++ [req] |}))
    by exact (Sign_cached_run ks pk base ref payload domain n Hpk Hurl Href).
  rewrite Hrun. cbn [fst snd sent].
  split; [reflexivity|].
  split; [apply utf8_coerce_ascii|].
  split; [intros e ->; reflexivity|].
  split; [intros st e ->; reflexivity|].
  intros st body ->. cbn [signature_of].
  destruct (json.Unmarshal_string_struct "sign" body) as [sig|]; [|reflexivity].
  destruct sig as [|c sig].
  - reflexivity.
  - destruct (decide (String c sig = "")) as [Heq|_]; [discriminate Heq|].
    destruct (hex.DecodeString (String c sig)) as [bytes|]; [|reflexivity].
    destruct (BLSSignatureFromBytes bytes); reflexivity.
Qed.

(** C3, as amended.  In the revision that keeps the key, [PublicKey] of a
    client that holds a key sends nothing, at the first call as at any
    other: it returns a copy of the held key, with the same bytes, and the
    client is not changed.  In the revision that holds the URL only, every
    call sends one GET to the URL of the client and decodes the hex text
    of "pk" in the answer; nothing is kept between calls. *)
Theorem PublicKey_held_or_fetched `{!LibsLaws H} :
  (forall (ks : KeyServiceCached.keyService) pk (n : Net),
     KeyServiceCached.publicKey ks = Some pk ->
     exists pk',
       KeyServiceCached.PublicKey ks n = (Ok (Some pk'), n) /\
       pk_Marshal pk' = pk_Marshal pk) /\
  (forall (ks : KeyServiceURL.keyService) (n : Net),
     let req := {| req_method := GET;
                   req_url := url_String (KeyServiceURL.URL ks);
                   req_contentType := "";
                   req_body := None |} in
     let out := KeyServiceURL.PublicKey ks n in
     sent (snd out) = (sent n ++ [req])%list /\
     (forall e, peer n (sent n) req = TransportError e -> fst out = Err e) /\
     (forall st e, peer n (sent n) req = ReadError st e -> fst out = Err e) /\
     (forall st body, peer n (sent n) req = Response st body ->
        match json.Unmarshal_string_struct "pk" body with
        | None => fst out = Err (lib_error encoding_json)
        | Some EmptyString => fst out = Err (errors_New "missing public key")
        | Some pk =>
            match hex.DecodeString pk with
            | None => fst out = Err (lib_error encoding_hex)
            | Some bytes =>
                fst out = orElse (BLSPublicKeyFromBytes bytes) eth2_types
            end
        end)).
Proof.
  split.
  - intros ks pk n Hpk. destruct (pk_reparse pk) as (pk' & Hcopy & Hbytes).
    exists pk'. unfold KeyServiceCached.PublicKey, ret. rewrite Hpk, Hcopy.
    split; [reflexivity|assumption].
  - intros ks n req out. subst out.
    unfold KeyServiceURL.PublicKey, bind, http_Get, roundTrip, ret.
    fold req. unfold KeyServiceURL.Unmarshal_publicKeyResponse.
    destruct (peer n (sent n) req) as [e|st e|st body] eqn:Hpeer.
    + split; [reflexivity|]. split; [intros e' [= <-]; reflexivity|].
      split; [intros st e' [=]|intros st body [=]].
    + split; [reflexivity|]. split; [intros e' [=]|].
      split; [intros st' e' [= _ <-]; reflexivity|intros st' body [=]].
    + split; [|split; [intros e [=]|split; [intros st' e [=]|]]].
      * unfold orElse.
        destruct (json.Unmarshal_string_struct "pk" body) as [pk|]; [|reflexivity].
        destruct (decide (pk = "")); [reflexivity|].
        destruct (hex.DecodeString pk); reflexivity.
      * intros st' body' [= <- <-].
        destruct (json.Unmarshal_string_struct "pk" body) as [pk|]; [|reflexivity].
        unfold orElse. destruct pk as [|c pk]; [reflexivity|].
        destruct (decide (String c pk = "")) as [Heq|_]; [discriminate Heq|].
        destruct (hex.DecodeString (String c pk)); reflexivity.
Qed.

End KeyServiceClient.

(** ** The JSON record of the account *)

Lemma obj_to_map_to_list (m : gmap string jvalue) :
  json.obj_to_map (map_to_list m) = m.
Proof.
  unfold json.obj_to_map.
  rewrite <- (list_to_map_to_list m) at 2.
  apply list_to_map_proper; [|apply reverse_Permutation].
  rewrite fmap_reverse, reverse_Permutation. apply NoDup_fst_map_to_list.
Qed.

(** Decoding the object that has one member per entry of a map gives the
    map back, when its numbers are in the range of float64 and its keys
    and strings are valid UTF-8. *)
Lemma Unmarshal_map_object (m : gmap string jvalue) :
  map_Forall (fun _ x => json.numbers_fit x = true) m ->
  map_Forall (fun k x => utf8.coerce k = k /\ json.unquote x = x) m ->
  json.Unmarshal_map (Doc (JObject (map_to_list m))) = Some m.
Proof.
  intros Hfit Htext. unfold json.Unmarshal_map.
  assert (Hall : json.numbers_fit (JObject (map_to_list m)) = true).
  { cbn [json.numbers_fit]. apply forallb_forall. intros [k x] Hin.
    apply list_elem_of_In, elem_of_map_to_list in Hin. exact (Hfit k x Hin). }
  assert (Hsame : json.unquote_members (map_to_list m) = map_to_list m).
  { unfold json.unquote_members. rewrite <- (map_id (map_to_list m)) at 2.
    apply map_ext_in. intros [k x] Hin.
    apply list_elem_of_In, elem_of_map_to_list in Hin.
    destruct (Htext k x Hin) as [-> ->]. reflexivity. }
  rewrite Hall, Hsame, obj_to_map_to_list. reflexivity.
Qed.

(** The strings of a decoded map are valid UTF-8. *)
Lemma Unmarshal_map_text (data : document) (v : gmap string jvalue) k s :
  json.Unmarshal_map data = Some v ->
  v !! k = Some (JString s) ->
  utf8.coerce s = s.
Proof.
  unfold json.Unmarshal_map.
  destruct data as [|[| | | | |kvs]]; try discriminate.
  - intros [= <-]. rewrite lookup_empty. discriminate.
  - destruct (json.numbers_fit (JObject kvs)); [|discriminate].
    intros [= <-] Hlook. unfold json.obj_to_map in Hlook.
    apply elem_of_list_to_map_2 in Hlook. rewrite elem_of_reverse in Hlook.
    unfold json.unquote_members in Hlook.
    apply list_elem_of_In, in_map_iff in Hlook as ([k0 x0] & Heq & _).
    injection Heq as _ Hx. destruct x0; try discriminate.
    cbn in Hx. injection Hx as <-. apply utf8_coerce_idempotent.
Qed.

Lemma go_uint_4 `{Libs} : go_uint (float64.of_dyadic 4 0) = 4.
Proof. reflexivity. Qed.

(** A whole number in the range of [uint] converts to itself. *)
Lemma go_uint_integer `{Libs} (f : spec_float) (n : Z) :
  float64.trunc f = Some n -> 0 <= n < 2 ^ 64 -> go_uint f = n.
Proof.
  intros Ht [Hlo Hhi]. unfold go_uint. rewrite Ht.
  destruct (Z.leb_spec 0 n); [|lia]. destruct (Z.ltb_spec n (2 ^ 64)); [|lia].
  reflexivity.
Qed.

Section AccountRecord.
Context {L : Libs} {KS : KeyService}.
Import Account.

Lemma record_of_lookups u n p ver k :
  record_of u n p ver k !! "uuid" = Some (JString u) /\
  record_of u n p ver k !! "name" = Some (JString n) /\
  record_of u n p ver k !! "pubkey" = Some (JString p) /\
  record_of u n p ver k !! "version" = Some (JNumber ver 0) /\
  record_of u n p ver k !! "keyService" = Some (JString k).
Proof. unfold record_of. repeat split; by simplify_map_eq. Qed.

Lemma MarshalJSON_Unmarshal_map (a : account) pk ks :
  publicKey a = Some pk ->
  keyService a = Some ks ->
  float64.is_finite (float64.of_dyadic (version a) 0) = true ->
  exists data,
    MarshalJSON a = Ok data /\
    json.Unmarshal_map data =
      Some (record_of (utf8.coerce (uuid_String (id a))) (utf8.coerce (name a))
              (utf8.coerce (hex.EncodeToString (pk_Marshal pk))) (version a)
              (utf8.coerce (ks_URL_String ks))).
Proof.
  intros Hpk Hks Hfit. unfold MarshalJSON. rewrite Hpk, Hks.
  eexists; split; [reflexivity|].
  unfold json.Marshal_map. rewrite !fmap_insert, fmap_empty. cbn [json.of_goval].
  apply Unmarshal_map_object; unfold record_of.
  - repeat (apply map_Forall_insert_2; [first [reflexivity | exact Hfit]|]).
    apply map_Forall_empty.
  - repeat (apply map_Forall_insert_2;
            [split; [reflexivity|];
             first [reflexivity
                   | cbn [json.unquote]; rewrite utf8_coerce_idempotent; reflexivity]|]).
    apply map_Forall_empty.
Qed.

(** C6, as amended.  An account with a public key, version 4 and a key
    service whose URL text, as JSON stores it, [newKeyService] accepts is
    marshalled to a record that unmarshals, into any receiver, to an
    account with the same id, a public key with the same bytes, the same
    version, and the name with every byte that is not part of valid UTF-8
    replaced by U+FFFD: the same name when the name is valid UTF-8. *)
Theorem account_json_round_trip {LL : LibsLaws L} (a : account) pk ks ks' :
  publicKey a = Some pk ->
  keyService a = Some ks ->
  version a = 4 ->
  ks_newKeyService (utf8.coerce (ks_URL_String ks)) = Ok ks' ->
  exists data,
    MarshalJSON a = Ok data /\
    forall a0, exists a' pk',
      UnmarshalJSON a0 data = (a', Ok tt) /\
      id a' = id a /\
      name a' = utf8.coerce (name a) /\
      (utf8.coerce (name a) = name a -> name a' = name a) /\
      publicKey a' = Some pk' /\
      pk_Marshal pk' = pk_Marshal pk /\
      version a' = version a.
Proof.
  intros Hpk Hks Hver Hnew.
  destruct (MarshalJSON_Unmarshal_map a pk ks Hpk Hks) as (data & Hm & Hu).
  { rewrite Hver. reflexivity. }
  exists data. split; [exact Hm|]. intros a0.
  destruct (pk_reparse pk) as (pk' & Hcopy & Hbytes).
  destruct (record_of_lookups (utf8.coerce (uuid_String (id a))) (utf8.coerce (name a))
              (utf8.coerce (hex.EncodeToString (pk_Marshal pk))) (version a)
              (utf8.coerce (ks_URL_String ks)))
    as (Huuid & Hname & Hpubkey & Hversion & Hkeyservice).
  unfold UnmarshalJSON. rewrite Hu.
  unfold andThen, unmarshalID, unmarshalName, unmarshalPubkey, unmarshalVersion,
    selectEncryptor, unmarshalKeyService, assignID.
  rewrite Huuid, Hname, Hpubkey, Hversion, Hkeyservice.
  cbn [json.as_string json.as_float64].
  rewrite uuid_String_text, hex_EncodeToString_text.
  rewrite uuid_reparse, hex_DecodeString_EncodeToString, Hcopy, Hver, go_uint_4, Hnew.
  cbn. eexists _, pk'. repeat split; try reflexivity; auto.
Qed.

Lemma UnmarshalJSON_beforeVersion (a0 a1 : account) data v :
  json.Unmarshal_map data = Some v ->
  beforeVersion v a0 = (a1, Ok tt) ->
  UnmarshalJSON a0 data =
    andThen (unmarshalVersion v) (andThen selectEncryptor (unmarshalKeyService v)) a1.
Proof.
  intros Hu Hb. unfold UnmarshalJSON. rewrite Hu.
  unfold beforeVersion in Hb. unfold andThen in Hb |- *.
  destruct (unmarshalID v a0) as [b [[]|e|]]; try discriminate.
  destruct (unmarshalName v b) as [c [[]|e|]]; try discriminate.
  rewrite Hb. reflexivity.
Qed.

(** C7, as amended.  When the identity, the name and the public key of a
    record are accepted and its "version" is a whole number [n] in the
    range of [uint]: if [n] is not 4, [UnmarshalJSON] fails with
    "unsupported keystore version"; if [n] is 4 the check passes, the
    keystorev4 encryptor is selected and the key service is read next. *)
Theorem version_other_than_4_unsupported (a0 a1 : account) data v val f n :
  json.Unmarshal_map data = Some v ->
  beforeVersion v a0 = (a1, Ok tt) ->
  v !! "version" = Some val ->
  json.as_float64 val = Some f ->
  float64.is_integer f = true ->
  float64.trunc f = Some n ->
  0 <= n < 2 ^ 64 ->
  (n <> 4 ->
     UnmarshalJSON a0 data =
       (set_version n a1, Err (errors_New "unsupported keystore version"))) /\
  (n = 4 ->
     UnmarshalJSON a0 data =
       unmarshalKeyService v (set_encryptor (Some keystorev4_New) (set_version 4 a1)) /\
     encryptor (fst (UnmarshalJSON a0 data)) = Some keystorev4_New).
Proof.
  intros Hu Hb Hv Hf _ Ht Hn.
  rewrite (UnmarshalJSON_beforeVersion a0 a1 data v Hu Hb).
  unfold andThen at 1. unfold unmarshalVersion. rewrite Hv, Hf.
  rewrite (go_uint_integer f n Ht Hn).
  unfold andThen, selectEncryptor. cbn [version set_version].
  split.
  - intros Hne. destruct (Z.eqb_spec n 4) as [->|_]; [contradiction|reflexivity].
  - intros ->. cbn [Z.eqb Pos.eqb]. split; [reflexivity|].
    apply (unmarshalKeyService_preserves encryptor v). reflexivity.
Qed.

Lemma andThen_not_ID_missing (s t : step) :
  not_ID_missing s -> not_ID_missing t -> not_ID_missing (andThen s t).
Proof.
  intros Hs Ht a. unfold andThen. specialize (Hs a).
  destruct (s a) as [a' [[]|e|]]; cbn in *; [apply Ht|assumption|discriminate].
Qed.

Lemma assignID_not_ID_missing val : not_ID_missing (assignID val).
Proof.
  intros a. unfold assignID.
  destruct (json.as_string val) as [s|]; [|discriminate].
  destruct (uuid_Parse s); discriminate.
Qed.

Lemma afterID_not_ID_missing v :
  (forall s, ks_newKeyService s <> Err (errors_New "account ID missing")) ->
  not_ID_missing (afterID v).
Proof.
  intros Hks. unfold afterID. repeat apply andThen_not_ID_missing.
  - unfold unmarshalName. destruct (v !! "name") as [val|]; [|discriminate].
    destruct (json.as_string val); discriminate.
  - unfold unmarshalPubkey. destruct (v !! "pubkey") as [val|]; [|discriminate].
    destruct (json.as_string val) as [s|]; [|discriminate].
    destruct (hex.DecodeString s) as [bs|]; [|discriminate].
    destruct (BLSPublicKeyFromBytes bs); discriminate.
  - unfold unmarshalVersion. destruct (v !! "version") as [val|]; [|discriminate].
    destruct (json.as_float64 val); discriminate.
  - intros a. unfold selectEncryptor. destruct (version a =? 4); discriminate.
  - unfold unmarshalKeyService. destruct (v !! "keyService") as [val|]; [|discriminate].
    destruct (json.as_string val) as [s|]; [|discriminate].
    intros a. specialize (Hks s).
    destruct (ks_newKeyService s) as [k|e|]; cbn; [discriminate|congruence|discriminate].
Qed.

(** C10, as amended.  A record without "uuid" whose "id" is a string that
    parses as an identifier is accepted as far as the identity goes: the
    account takes its id from "id", the rest of the record is read into
    it, and [UnmarshalJSON] succeeds when the rest succeeds.  The error
    "account ID missing" is returned exactly when the record has neither
    "uuid" nor "id". *)
Theorem legacy_id_field_accepted :
  (forall s, ks_newKeyService s <> Err (errors_New "account ID missing")) ->
  (forall (a0 : account) data v idStr x,
     json.Unmarshal_map data = Some v ->
     v !! "uuid" = None ->
     v !! "id" = Some (JString idStr) ->
     uuid_Parse idStr = Some x ->
     UnmarshalJSON a0 data = afterID v (set_id x a0) /\
     id (fst (UnmarshalJSON a0 data)) = x /\
     (forall a', afterID v (set_id x a0) = (a', Ok tt) ->
        UnmarshalJSON a0 data = (a', Ok tt) /\ id a' = x)) /\
  (forall (a0 : account) data,
     snd (UnmarshalJSON a0 data) = Err (errors_New "account ID missing") <->
     exists v, json.Unmarshal_map data = Some v /\
               v !! "uuid" = None /\ v !! "id" = None).
Proof.
  intros Hks. split.
  - intros a0 data v idStr x Hu Huuid Hid Hparse.
    assert (Hrun : UnmarshalJSON a0 data = afterID v (set_id x a0)).
    { unfold UnmarshalJSON. rewrite Hu. fold (afterID v).
      unfold andThen at 1. unfold unmarshalID, assignID.
      rewrite Huuid, Hid. cbn [json.as_string]. rewrite Hparse. reflexivity. }
    assert (Hkeep : id (fst (afterID v (set_id x a0))) = x).
    { change x with (id (set_id x a0)) at 2. generalize (set_id x a0).
      change (preserves id (afterID v)). unfold afterID.
      auto 12 with account_blocks. }
    rewrite Hrun. split; [reflexivity|]. split; [exact Hkeep|].
    intros a' Ha'. rewrite Ha' in Hkeep |- *. split; [reflexivity|exact Hkeep].
  - intros a0 data. unfold UnmarshalJSON.
    destruct (json.Unmarshal_map data) as [v|]; cycle 1.
    { split; [discriminate|]. intros (v & [=] & _). }
    fold (afterID v). unfold andThen at 1. unfold unmarshalID.
    destruct (v !! "uuid") as [val|] eqn:Huuid.
    { split; [|intros (v' & [= <-] & Hn & _); congruence].
      intros Herr. exfalso. pose proof (assignID_not_ID_missing val a0) as Hno.
      destruct (assignID val a0) as [a' [[]|e|]]; cbn in *;
        [exact (afterID_not_ID_missing v Hks a' Herr)|contradiction|discriminate]. }
    destruct (v !! "id") as [val|] eqn:Hid.
    { split; [|intros (v' & [= <-] & _ & Hn); congruence].
      intros Herr. exfalso. pose proof (assignID_not_ID_missing val a0) as Hno.
      destruct (assignID val a0) as [a' [[]|e|]]; cbn in *;
        [exact (afterID_not_ID_missing v Hks a' Herr)|contradiction|discriminate]. }
    split; [|reflexivity]. intros _. exists v. auto.
Qed.

End AccountRecord.

(* ===================================================================== *)
(** * Further properties *)
(* ===================================================================== *)

(** ** Whole numbers through JSON *)

Lemma digits2_pos_bounds (m : positive) :
  2 ^ (Zpos (digits2_pos m) - 1) <= Zpos m < 2 ^ Zpos (digits2_pos m).
Proof.
  induction m as [m IH|m IH|]; cbn [digits2_pos].
  - rewrite Pos2Z.inj_succ.
    replace (Z.succ (Zpos (digits2_pos m)) - 1)
      with (Z.succ (Zpos (digits2_pos m) - 1)) by lia.
    rewrite !Z.pow_succ_r by lia. lia.
  - rewrite Pos2Z.inj_succ.
    replace (Z.succ (Zpos (digits2_pos m)) - 1)
      with (Z.succ (Zpos (digits2_pos m) - 1)) by lia.
    rewrite !Z.pow_succ_r by lia. lia.
  - cbn. lia.
Qed.

Lemma iter_xO_shifts (m k : positive) :
  Zpos (Pos.iter xO m k) = Zpos m * 2 ^ Zpos k /\
  digits2_pos (Pos.iter xO m k) = (digits2_pos m + k)%positive.
Proof.
  induction k as [|k IH] using Pos.peano_ind.
  - cbn. split; [lia|]. rewrite Pos.add_1_r. reflexivity.
  - rewrite Pos.iter_succ. destruct IH as [IH1 IH2]. split.
    + rewrite Pos2Z.inj_xO, IH1, Pos2Z.inj_succ, Z.pow_succ_r by lia. lia.
    + cbn [digits2_pos]. rewrite IH2. lia.
Qed.

(** A mantissa of 53 bits with an exponent in range is not rounded. *)
Lemma binary_round_aux_exact (mz : positive) (ez : Z) :
  digits2_pos mz = 53%positive ->
  -1074 <= ez <= 971 ->
  binary_round_aux 53 1024 false (Zpos mz) ez loc_Exact = S754_finite false mz ez.
Proof.
  intros Hd He. unfold binary_round_aux, shr_fexp, fexp, emin.
  cbn [Zdigits2]. rewrite Hd.
  replace (Z.max (53 + ez - 53) (3 - 1024 - 53) - ez) with 0 by lia.
  cbn [shr shr_record_of_loc loc_of_shr_record shr_m round_nearest_even Zdigits2].
  rewrite Hd.
  replace (Z.max (53 + ez - 53) (3 - 1024 - 53) - ez) with 0 by lia.
  cbn [shr shr_m shr_record_of_loc].
  destruct (Z.leb_spec ez (1024 - 53)); [reflexivity|lia].
Qed.

(** A whole number below 2^53 is a float64, and its integer part is the
    number. *)
Lemma of_dyadic_small (n : Z) :
  0 <= n < 2 ^ 53 ->
  float64.is_finite (float64.of_dyadic n 0) = true /\
  float64.trunc (float64.of_dyadic n 0) = Some n.
Proof.
  intros [Hlo Hhi]. destruct n as [|m|m]; [split; reflexivity| |lia].
  pose proof (digits2_pos_bounds m) as [Hdlo Hdhi].
  set (d := digits2_pos m) in *.
  assert (Hd : Zpos d <= 53).
  { destruct (Z.le_gt_cases (Zpos d) 53) as [|Hgt]; [assumption|].
    assert (2 ^ 53 <= 2 ^ (Zpos d - 1)) by (apply Z.pow_le_mono_r; lia). lia. }
  unfold float64.of_dyadic, float64.prec, float64.emax,
    binary_normalize, binary_round, shl_align, fexp, emin.
  fold d. rewrite Z.add_0_r.
  replace (Z.max (Zpos d - 53) (3 - 1024 - 53) - 0) with (Zpos d - 53) by lia.
  replace (Z.max (Zpos d - 53) (3 - 1024 - 53)) with (Zpos d - 53) by lia.
  destruct (Zpos d - 53) as [|p|k] eqn:Hk; [|lia|].
  - rewrite binary_round_aux_exact; [|unfold d in *; lia|lia].
    split; [reflexivity|]. cbn. f_equal. lia.
  - destruct (iter_xO_shifts m k) as [Hv Hdig].
    rewrite binary_round_aux_exact; [|rewrite Hdig; fold d; lia|lia].
    split; [reflexivity|].
    unfold float64.trunc. cbn [Z.leb Z.compare Z.opp]. rewrite Hv.
    rewrite Z.div_mul; [reflexivity|]. apply Z.pow_nonzero; lia.
Qed.

(** What [MarshalJSON] writes for a [uint] below 2^53, [uint(float64)]
    reads back. *)
Lemma go_uint_of_dyadic `{Libs} (n : Z) :
  0 <= n < 2 ^ 53 -> go_uint (float64.of_dyadic n 0) = n.
Proof.
  intros Hn. destruct (of_dyadic_small n Hn) as [_ Ht].
  apply go_uint_integer; [exact Ht|].
  assert (2 ^ 53 < 2 ^ 64) by reflexivity. lia.
Qed.

(** ** The account through its calls *)

Section AccountCalls.
Context `{Libs} `{!KeyService}.
Import Account.

Lemma perform_flag (c : call) (b : bool) (a : account) :
  perform c (set_unlocked b a) =
    set_unlocked (match c with CallLock => false | CallUnlock _ => true end) a.
Proof. destruct c; reflexivity. Qed.

Lemma perform_all_flag (cs : list call) (b : bool) (a : account) :
  perform_all cs (set_unlocked b a) = set_unlocked (flag_after cs b) a.
Proof.
  revert b. induction cs as [|c cs IH]; intros b; [reflexivity|].
  cbn [perform_all flag_after fold_left]. rewrite perform_flag. apply IH.
Qed.

Lemma flag_after_last (cs : list call) (c : call) (b : bool) :
  flag_after (cs ++ [c]) b = match c with CallLock => false | CallUnlock _ => true end.
Proof. unfold flag_after. rewrite fold_left_app. reflexivity. Qed.

(** X1.  Of a history of [Lock] and [Unlock] calls only the last one
    counts, and only for the lock flag: the account comes out with every
    other field as it was; after a last [Lock], [Sign] refuses and sends
    nothing; after a last [Unlock], whatever the passphrases, [Sign] hands
    the call to the key service. *)
Theorem lock_flag_follows_last_call (cs : list call) (a : account) :
  perform_all cs a = set_unlocked (flag_after cs (unlocked a)) a /\
  (forall data domain n,
     Sign (perform_all (cs ++ [CallLock]) a) data domain n =
       (Err (errors_New "cannot sign when account is locked"),
        set_unlocked false a, n)) /\
  (forall passphrase ks data domain n,
     keyService a = Some ks ->
     Sign (perform_all (cs ++ [CallUnlock passphrase]) a) data domain n =
       (fst (ks_Sign ks (publicKey a) data n), set_unlocked true a,
        snd (ks_Sign ks (publicKey a) data n))).
Proof.
  assert (Hall : forall cs', perform_all cs' a =
                             set_unlocked (flag_after cs' (unlocked a)) a).
  { intros cs'. rewrite <- (set_unlocked_same a) at 1. apply perform_all_flag. }
  split; [apply Hall|]. split.
  - intros data domain n. rewrite Hall, flag_after_last. reflexivity.
  - intros p ks data domain n Hks. rewrite Hall, flag_after_last.
    unfold Sign. cbn [IsUnlocked unlocked set_unlocked negb keyService publicKey].
    rewrite Hks. destruct (ks_Sign ks (publicKey a) data n); reflexivity.
Qed.

Lemma andThen_keyService_on_success (s t : step) :
  preserves keyService s -> keyService_on_success t ->
  keyService_on_success (andThen s t).
Proof.
  intros Hs Ht a. unfold andThen. specialize (Hs a).
  destruct (s a) as [b [[]|e|]]; cbn in *; [|right; assumption..].
  destruct (Ht b) as [Hok|Hsame]; [left; assumption|right; congruence].
Qed.

Lemma unmarshalKeyService_on_success v : keyService_on_success (unmarshalKeyService v).
Proof.
  intros a. unfold unmarshalKeyService.
  destruct (v !! "keyService") as [val|]; [|right; reflexivity].
  destruct (json.as_string val) as [s|]; [|right; reflexivity].
  destruct (ks_newKeyService s) as [k|e|]; [left|right..]; reflexivity.
Qed.

(** X2.  [UnmarshalJSON] writes neither the wallet nor the lock flag of
    its receiver, and it replaces the key service only when it succeeds:
    after a failure the receiver is bound as before. *)
Theorem UnmarshalJSON_frame (a : account) (data : document) :
  wallet (fst (UnmarshalJSON a data)) = wallet a /\
  unlocked (fst (UnmarshalJSON a data)) = unlocked a /\
  (snd (UnmarshalJSON a data) = Ok tt \/
   keyService (fst (UnmarshalJSON a data)) = keyService a).
Proof.
  unfold UnmarshalJSON.
  destruct (json.Unmarshal_map data) as [v|]; [|repeat split; right; reflexivity].
  split; [|split].
  - revert a. change (preserves wallet
      (andThen (unmarshalID v) (andThen (unmarshalName v) (andThen (unmarshalPubkey v)
        (andThen (unmarshalVersion v) (andThen selectEncryptor (unmarshalKeyService v))))))).
    auto 12 with account_blocks.
  - revert a. change (preserves unlocked
      (andThen (unmarshalID v) (andThen (unmarshalName v) (andThen (unmarshalPubkey v)
        (andThen (unmarshalVersion v) (andThen selectEncryptor (unmarshalKeyService v))))))).
    auto 12 with account_blocks.
  - revert a. change (keyService_on_success
      (andThen (unmarshalID v) (andThen (unmarshalName v) (andThen (unmarshalPubkey v)
        (andThen (unmarshalVersion v) (andThen selectEncryptor (unmarshalKeyService v))))))).
    repeat (apply andThen_keyService_on_success; [auto with account_blocks|]).
    apply unmarshalKeyService_on_success.
Qed.

End AccountCalls.

(** ** What a decoded account is *)

Section AccountDecoding.
Context `{Libs} `{!KeyService}.
Import Account.

Lemma andThen_Ok_inv (s t : step) (a a' : account) :
  andThen s t a = (a', Ok tt) ->
  exists b, s a = (b, Ok tt) /\ t b = (a', Ok tt).
Proof.
  unfold andThen. destruct (s a) as [b [[]|e|]]; [|discriminate..].
  intros Ht. exists b. split; [reflexivity|exact Ht].
Qed.

Lemma unmarshalID_Ok_inv v (a a' : account) :
  unmarshalID v a = (a', Ok tt) -> exists x, a' = set_id x a.
Proof.
  assert (Hassign : forall val, assignID val a = (a', Ok tt) -> exists x, a' = set_id x a).
  { intros val. unfold assignID.
    destruct (json.as_string val) as [s|]; [|discriminate].
    destruct (uuid_Parse s) as [x|]; [|discriminate].
    intros [= <-]. exists x. reflexivity. }
  unfold unmarshalID.
  destruct (v !! "uuid") as [val|]; [apply Hassign|].
  destruct (v !! "id") as [val|]; [apply Hassign|discriminate].
Qed.

Lemma unmarshalName_Ok_inv v (a a' : account) :
  unmarshalName v a = (a', Ok tt) -> exists x, a' = set_name x a.
Proof.
  unfold unmarshalName.
  destruct (v !! "name") as [val|]; [|discriminate].
  destruct (json.as_string val) as [x|]; [|discriminate].
  intros [= <-]. exists x. reflexivity.
Qed.

Lemma unmarshalPubkey_Ok_inv v (a a' : account) :
  unmarshalPubkey v a = (a', Ok tt) -> exists pk, a' = set_publicKey (Some pk) a.
Proof.
  unfold unmarshalPubkey.
  destruct (v !! "pubkey") as [val|]; [|discriminate].
  destruct (json.as_string val) as [s|]; [|discriminate].
  destruct (hex.DecodeString s) as [bs|]; [|discriminate].
  destruct (BLSPublicKeyFromBytes bs) as [pk|]; [|discriminate].
  intros [= <-]. exists pk. reflexivity.
Qed.

Lemma unmarshalVersion_Ok_inv v (a a' : account) :
  unmarshalVersion v a = (a', Ok tt) -> exists n, a' = set_version n a.
Proof.
  unfold unmarshalVersion.
  destruct (v !! "version") as [val|]; [|discriminate].
  destruct (json.as_float64 val) as [f|]; [|discriminate].
  intros [= <-]. eexists. reflexivity.
Qed.

Lemma selectEncryptor_Ok_inv (a a' : account) :
  selectEncryptor a = (a', Ok tt) ->
  version a = 4 /\ a' = set_encryptor (Some keystorev4_New) a.
Proof.
  unfold selectEncryptor. destruct (Z.eqb_spec (version a) 4) as [Hv|_]; [|discriminate].
  intros [= <-]. split; [exact Hv|reflexivity].
Qed.

Lemma unmarshalKeyService_Ok_inv v (a a' : account) :
  unmarshalKeyService v a = (a', Ok tt) -> exists ks, a' = set_keyService (Some ks) a.
Proof.
  unfold unmarshalKeyService.
  destruct (v !! "keyService") as [val|]; [|discriminate].
  destruct (json.as_string val) as [s|]; [|discriminate].
  destruct (ks_newKeyService s) as [k|e|]; [|discriminate..].
  intros [= <-]. exists k. reflexivity.
Qed.

(** What a successful [UnmarshalJSON] has made of its receiver. *)
Lemma UnmarshalJSON_Ok_inv (a0 a' : account) (data : document) :
  UnmarshalJSON a0 data = (a', Ok tt) ->
  exists x nm pk ks,
    a' = {| id := x; name := nm; publicKey := Some pk; version := 4;
            wallet := wallet a0; encryptor := Some keystorev4_New;
            unlocked := unlocked a0; keyService := Some ks |}.
Proof.
  unfold UnmarshalJSON. destruct (json.Unmarshal_map data) as [v|]; [|discriminate].
  intros Hrun.
  apply andThen_Ok_inv in Hrun as (a1 & H1 & Hrun).
  apply andThen_Ok_inv in Hrun as (a2 & H2 & Hrun).
  apply andThen_Ok_inv in Hrun as (a3 & H3 & Hrun).
  apply andThen_Ok_inv in Hrun as (a4 & H4 & Hrun).
  apply andThen_Ok_inv in Hrun as (a5 & H5 & H6).
  apply unmarshalID_Ok_inv in H1 as [x ->].
  apply unmarshalName_Ok_inv in H2 as [nm ->].
  apply unmarshalPubkey_Ok_inv in H3 as [pk ->].
  apply unmarshalVersion_Ok_inv in H4 as [n ->].
  apply selectEncryptor_Ok_inv in H5 as [Hv ->].
  apply unmarshalKeyService_Ok_inv in H6 as [ks ->].
  cbn in Hv. subst n. exists x, nm, pk, ks. reflexivity.
Qed.

(** The name of a decoded account is valid UTF-8. *)
Lemma deserializeAccount_name_text (w : Wallet) (data : document) (a : account) :
  deserializeAccount w data = Ok a -> utf8.coerce (name a) = name a.
Proof.
  unfold deserializeAccount, UnmarshalJSON.
  destruct (json.Unmarshal_map data) as [v|] eqn:Hv; [|discriminate].
  destruct (andThen _ _ _) as [a' [[]|e|]] eqn:Hrun; try discriminate.
  intros [= <-].
  apply andThen_Ok_inv in Hrun as (a1 & H1 & Hrun).
  apply andThen_Ok_inv in Hrun as (a2 & H2 & Hrun).
  apply andThen_Ok_inv in Hrun as (a3 & H3 & Hrun).
  apply andThen_Ok_inv in Hrun as (a4 & H4 & Hrun).
  apply andThen_Ok_inv in Hrun as (a5 & H5 & H6).
  apply unmarshalPubkey_Ok_inv in H3 as [pk ->].
  apply unmarshalVersion_Ok_inv in H4 as [n ->].
  apply selectEncryptor_Ok_inv in H5 as [_ ->].
  apply unmarshalKeyService_Ok_inv in H6 as [ks ->].
  cbn [name set_keyService set_encryptor set_version set_publicKey].
  unfold unmarshalName in H2.
  destruct (v !! "name") as [val|] eqn:Hname; [|discriminate].
  destruct val; try discriminate. cbn in H2. injection H2 as <-.
  cbn [name set_name]. exact (Unmarshal_map_text data v "name" _ Hv Hname).
Qed.

(** What [deserializeAccount] returns, when it returns an account. *)
Lemma deserializeAccount_Ok_inv (w : Wallet) (data : document) (a : account) :
  deserializeAccount w data = Ok a ->
  exists x nm pk ks,
    a = {| id := x; name := nm; publicKey := Some pk; version := 4;
           wallet := Some w; encryptor := Some keystorev4_New;
           unlocked := false; keyService := Some ks |}.
Proof.
  unfold deserializeAccount. intros Hd.
  destruct (UnmarshalJSON _ data) as [a' [[]|e|]] eqn:Hrun; try discriminate.
  injection Hd as <-.
  apply UnmarshalJSON_Ok_inv in Hrun as (x & nm & pk & ks & ->).
  exists x, nm, pk, ks. reflexivity.
Qed.

(** X3.  Every account that [deserializeAccount] returns has version 4,
    the keystorev4 encryptor in place of the one it took from the wallet,
    a public key and a key service; it belongs to the wallet it was read
    for, and it is locked. *)
Theorem deserializeAccount_result (w : Wallet) (data : document) (a : account) :
  deserializeAccount w data = Ok a ->
  version a = 4 /\
  encryptor a = Some keystorev4_New /\
  wallet a = Some w /\
  unlocked a = false /\
  (exists pk, publicKey a = Some pk) /\
  (exists ks, keyService a = Some ks).
Proof.
  intros Hd. apply deserializeAccount_Ok_inv in Hd as (x & nm & pk & ks & ->).
  cbn. repeat split; eauto.
Qed.

(** X4.  What [UnmarshalJSON] answers does not depend on its receiver:
    two receivers get the same outcome from the same record, and when
    that is success they come out with the same id, name, public key,
    version, encryptor and key service. *)
Theorem UnmarshalJSON_receiver_independent (a b : account) (data : document) :
  snd (UnmarshalJSON a data) = snd (UnmarshalJSON b data) /\
  (snd (UnmarshalJSON a data) = Ok tt ->
   id (fst (UnmarshalJSON a data)) = id (fst (UnmarshalJSON b data)) /\
   name (fst (UnmarshalJSON a data)) = name (fst (UnmarshalJSON b data)) /\
   publicKey (fst (UnmarshalJSON a data)) = publicKey (fst (UnmarshalJSON b data)) /\
   version (fst (UnmarshalJSON a data)) = version (fst (UnmarshalJSON b data)) /\
   encryptor (fst (UnmarshalJSON a data)) = encryptor (fst (UnmarshalJSON b data)) /\
   keyService (fst (UnmarshalJSON a data)) = keyService (fst (UnmarshalJSON b data))).
Proof.
  unfold UnmarshalJSON. destruct (json.Unmarshal_map data) as [v|]; [|split; [reflexivity|discriminate]].
  unfold andThen, unmarshalID, assignID, unmarshalName, unmarshalPubkey,
    unmarshalVersion, selectEncryptor, unmarshalKeyService, fail.
  destruct (v !! "uuid") as [u|]; [|destruct (v !! "id") as [u|]].
  3: { split; [reflexivity|discriminate]. }
  all: destruct (json.as_string u) as [s|]; [|split; [reflexivity|discriminate]];
    destruct (uuid_Parse s) as [x|]; [|split; [reflexivity|discriminate]];
    destruct (v !! "name") as [nv|]; [|split; [reflexivity|discriminate]];
    destruct (json.as_string nv) as [nm|]; [|split; [reflexivity|discriminate]];
    destruct (v !! "pubkey") as [pv|]; [|split; [reflexivity|discriminate]];
    destruct (json.as_string pv) as [ps|]; [|split; [reflexivity|discriminate]];
    destruct (hex.DecodeString ps) as [bs|]; [|split; [reflexivity|discriminate]];
    destruct (BLSPublicKeyFromBytes bs) as [pk|]; [|split; [reflexivity|discriminate]];
    destruct (v !! "version") as [vv|]; [|split; [reflexivity|discriminate]];
    destruct (json.as_float64 vv) as [f|]; [|split; [reflexivity|discriminate]];
    cbn [version set_version];
    destruct (go_uint f =? 4); [|split; [reflexivity|discriminate]];
    destruct (v !! "keyService") as [kv|]; [|split; [reflexivity|discriminate]];
    destruct (json.as_string kv) as [k|]; [|split; [reflexivity|discriminate]];
    destruct (ks_newKeyService k) as [ks|e|]; split; try reflexivity; try discriminate;
    intros _; repeat split.
Qed.

(** X5.  Among records that decode, a record that has "uuid" is read
    without its "id": two records that decode, agree on every member
    other than "id" and of which one has "uuid" are treated alike, also
    when the "uuid" is not an identifier.  That both decode is needed: a
    member whose number is outside float64, an "id" included, makes the
    whole record fail to decode, "uuid" or not, and the receiver stays as
    it was. *)
Theorem uuid_takes_precedence :
  (forall (a : account) (data1 data2 : document) v1 v2 val,
     json.Unmarshal_map data1 = Some v1 ->
     json.Unmarshal_map data2 = Some v2 ->
     v1 !! "uuid" = Some val ->
     (forall k, k <> "id" -> v2 !! k = v1 !! k) ->
     UnmarshalJSON a data1 = UnmarshalJSON a data2) /\
  (forall (a : account) kvs k x,
     json.numbers_fit x = false ->
     UnmarshalJSON a (Doc (JObject (kvs ++ [(k, x)])%list)) =
       (a, Err (lib_error encoding_json))).
Proof.
  split.
  - intros a data1 data2 v1 v2 val H1 H2 Huuid Hsame.
    unfold UnmarshalJSON. rewrite H1, H2.
    unfold unmarshalID, unmarshalName, unmarshalPubkey, unmarshalVersion,
      unmarshalKeyService.
    rewrite (Hsame "uuid"), (Hsame "name"), (Hsame "pubkey"), (Hsame "version"),
      (Hsame "keyService") by discriminate.
    rewrite Huuid. reflexivity.
  - intros a kvs k x Hx. unfold UnmarshalJSON, json.Unmarshal_map.
    cbn [json.numbers_fit]. rewrite forallb_app. cbn [forallb]. rewrite Hx.
    rewrite andb_false_r. reflexivity.
Qed.

(** X15.  An account that [deserializeAccount] has returned holds a key
    and a key service, so that once it is unlocked, whatever the
    passphrase, [Sign] hands its key and the data to that key service and
    returns what the key service returns.  The account that [newAccount]
    makes has no key service to call. *)
Theorem decoded_account_signs (w : Wallet) (data : document) (a : account) :
  deserializeAccount w data = Ok a ->
  (exists pk ks,
     publicKey a = Some pk /\
     keyService a = Some ks /\
     forall passphrase payload domain n,
       Sign (fst (Unlock a passphrase)) payload domain n =
         (fst (ks_Sign ks (Some pk) payload n),
          fst (Unlock a passphrase),
          snd (ks_Sign ks (Some pk) payload n))) /\
  (forall passphrase payload domain n,
     Sign (fst (Unlock newAccount passphrase)) payload domain n =
       (Panic, fst (Unlock newAccount passphrase), n)).
Proof.
  intros Hd. split; [|reflexivity].
  apply deserializeAccount_Ok_inv in Hd as (x & nm & pk & ks & ->).
  exists pk, ks. split; [reflexivity|]. split; [reflexivity|].
  intros passphrase payload domain n.
  unfold Sign, Unlock, IsUnlocked.
  cbn [fst unlocked set_unlocked negb keyService publicKey].
  destruct (ks_Sign ks (Some pk) payload n); reflexivity.
Qed.

End AccountDecoding.

(** ** The account stored and read back *)

Section AccountStored.
Context {L : Libs} {LL : LibsLaws L} {KS : KeyService}.
Import Account.

(** What [UnmarshalJSON] makes of the record that [MarshalJSON] wrote,
    up to the version check. *)
Lemma UnmarshalJSON_MarshalJSON (a : account) pk ks :
  publicKey a = Some pk ->
  keyService a = Some ks ->
  0 <= version a < 2 ^ 53 ->
  exists data pk',
    MarshalJSON a = Ok data /\
    pk_Marshal pk' = pk_Marshal pk /\
    forall a0,
      UnmarshalJSON a0 data =
        andThen selectEncryptor
          (fun b =>
             match ks_newKeyService (utf8.coerce (ks_URL_String ks)) with
             | Ok ks' => (set_keyService (Some ks') b, Ok tt)
             | Err e => (b, Err e)
             | Panic => (b, Panic)
             end)
          (set_version (version a)
             (set_publicKey (Some pk')
                (set_name (utf8.coerce (name a)) (set_id (id a) a0)))).
Proof.
  intros Hpk Hks Hver.
  destruct (of_dyadic_small (version a) Hver) as [Hfit _].
  destruct (MarshalJSON_Unmarshal_map a pk ks Hpk Hks Hfit) as (data & Hm & Hu).
  destruct (pk_reparse pk) as (pk' & Hcopy & Hbytes).
  exists data, pk'. split; [exact Hm|]. split; [exact Hbytes|]. intros a0.
  destruct (record_of_lookups (utf8.coerce (uuid_String (id a))) (utf8.coerce (name a))
              (utf8.coerce (hex.EncodeToString (pk_Marshal pk))) (version a)
              (utf8.coerce (ks_URL_String ks)))
    as (Huuid & Hname & Hpubkey & Hversion & Hkeyservice).
  unfold UnmarshalJSON. rewrite Hu.
  unfold andThen at 1 2 3 4.
  unfold unmarshalID, unmarshalName, unmarshalPubkey, unmarshalVersion,
    unmarshalKeyService, assignID.
  rewrite Huuid, Hname, Hpubkey, Hversion, Hkeyservice.
  cbn [json.as_string json.as_float64].
  rewrite uuid_String_text, hex_EncodeToString_text.
  rewrite uuid_reparse, hex_DecodeString_EncodeToString, Hcopy.
  rewrite (go_uint_of_dyadic (version a) Hver).
  destruct (ks_newKeyService (utf8.coerce (ks_URL_String ks))); reflexivity.
Qed.

(** X6.  The lock flag is not part of the record: [MarshalJSON] writes
    the same record for the account locked and unlocked, and the account
    that [deserializeAccount] reads from it is locked and refuses to
    sign, whatever the flag was when the record was written.  (The URL
    text of the key service is taken as the record stores it.) *)
Theorem lock_flag_not_stored (a : account) pk ks ks' :
  publicKey a = Some pk ->
  keyService a = Some ks ->
  version a = 4 ->
  ks_newKeyService (utf8.coerce (ks_URL_String ks)) = Ok ks' ->
  exists data,
    (forall flag, MarshalJSON (set_unlocked flag a) = Ok data) /\
    forall w, exists a',
      deserializeAccount w data = Ok a' /\
      id a' = id a /\
      IsUnlocked a' = false /\
      forall payload domain n,
        Sign a' payload domain n =
          (Err (errors_New "cannot sign when account is locked"), a', n).
Proof.
  intros Hpk Hks Hver Hnew.
  destruct (UnmarshalJSON_MarshalJSON a pk ks Hpk Hks) as (data & pk' & Hm & _ & Hu).
  { rewrite Hver. split; [lia|reflexivity]. }
  exists data. split.
  - intros flag. unfold MarshalJSON in *. cbn [publicKey keyService set_unlocked] in *.
    exact Hm.
  - intros w. unfold deserializeAccount. rewrite Hu, Hnew, Hver.
    unfold andThen, selectEncryptor. cbn.
    eexists. split; [reflexivity|]. repeat split.
Qed.

(** X7.  [MarshalJSON] does not look at the version, [UnmarshalJSON]
    does: an account whose version is not 4 is written without complaint,
    and reading the record back fails with "unsupported keystore version".
    The receiver then has taken the id, the name as the record stores it,
    a key with the same bytes and that version, and nothing else: its
    encryptor, its key service and its other fields are as they were. *)
Theorem other_version_written_not_read (a : account) pk ks :
  publicKey a = Some pk ->
  keyService a = Some ks ->
  0 <= version a < 2 ^ 53 ->
  version a <> 4 ->
  exists data pk',
    MarshalJSON a = Ok data /\
    pk_Marshal pk' = pk_Marshal pk /\
    forall a0,
      UnmarshalJSON a0 data =
        (set_version (version a)
           (set_publicKey (Some pk')
              (set_name (utf8.coerce (name a)) (set_id (id a) a0))),
         Err (errors_New "unsupported keystore version")).
Proof.
  intros Hpk Hks Hver Hne.
  destruct (UnmarshalJSON_MarshalJSON a pk ks Hpk Hks Hver)
    as (data & pk' & Hm & Hbytes & Hu).
  exists data, pk'. split; [exact Hm|]. split; [exact Hbytes|]. intros a0. rewrite Hu.
  unfold andThen, selectEncryptor. cbn [version set_version].
  destruct (Z.eqb_spec (version a) 4) as [Heq|_]; [contradiction|].
  reflexivity.
Qed.

(** X8.  [PublicKey] of an account that holds a key returns a key with
    the same bytes, and no error; every account that [deserializeAccount]
    returns holds one.  On the account that [newAccount] makes the call
    dereferences nil. *)
Theorem account_PublicKey_copies :
  (forall (a : account) pk,
     publicKey a = Some pk ->
     exists pk', PublicKey a = Ok (Some pk') /\ pk_Marshal pk' = pk_Marshal pk) /\
  (forall w data (a : account),
     deserializeAccount w data = Ok a ->
     exists pk', PublicKey a = Ok (Some pk')) /\
  PublicKey newAccount = Panic.
Proof.
  assert (Hcopy : forall (a : account) pk, publicKey a = Some pk ->
            exists pk', PublicKey a = Ok (Some pk') /\ pk_Marshal pk' = pk_Marshal pk).
  { intros a pk Hpk. destruct (pk_reparse pk) as (pk' & Hc & Hb).
    exists pk'. unfold PublicKey. rewrite Hpk, Hc. split; [reflexivity|exact Hb]. }
  split; [exact Hcopy|]. split; [|reflexivity].
  intros w data a Hd.
  apply deserializeAccount_Ok_inv in Hd as (x & nm & pk & ks & ->).
  destruct (pk_reparse pk) as (pk' & Hc & _).
  exists pk'. unfold PublicKey. cbn [publicKey]. rewrite Hc. reflexivity.
Qed.

(** X16.  An account that [deserializeAccount] has returned can be
    stored again: [MarshalJSON] gives a record, where on the account that
    [newAccount] makes it dereferences nil; and when [newKeyService]
    accepts the URL text of its key service, as the record stores it,
    [deserializeAccount] reads that record, for any wallet, as an account
    with the same id, the same name, a key with the same bytes and the key
    service made from that text. *)
Theorem decoded_account_stored_again (w : Wallet) (data : document) (a : account) :
  deserializeAccount w data = Ok a ->
  MarshalJSON newAccount = Panic /\
  exists record ks pk,
    MarshalJSON a = Ok record /\
    keyService a = Some ks /\
    publicKey a = Some pk /\
    forall ks' w',
      ks_newKeyService (utf8.coerce (ks_URL_String ks)) = Ok ks' ->
      exists a' pk',
        deserializeAccount w' record = Ok a' /\
        id a' = id a /\
        name a' = name a /\
        publicKey a' = Some pk' /\
        pk_Marshal pk' = pk_Marshal pk /\
        keyService a' = Some ks' /\
        wallet a' = Some w'.
Proof.
  intros Hd. split; [reflexivity|].
  pose proof (deserializeAccount_name_text w data a Hd) as Htext.
  apply deserializeAccount_Ok_inv in Hd as (x & nm & pk & ks & ->).
  cbn [name] in Htext.
  set (a := {| id := x; name := nm; publicKey := Some pk; version := 4;
               wallet := Some w; encryptor := Some keystorev4_New;
               unlocked := false; keyService := Some ks |}).
  destruct (UnmarshalJSON_MarshalJSON a pk ks eq_refl eq_refl)
    as (record & pk' & Hm & Hbytes & Hu).
  { cbn. split; [lia|reflexivity]. }
  exists record, ks, pk. split; [exact Hm|]. split; [reflexivity|]. split; [reflexivity|].
  intros ks' w' Hnew. unfold deserializeAccount. rewrite Hu, Hnew.
  unfold andThen, selectEncryptor. cbn.
  eexists _, pk'. split; [reflexivity|]. repeat split; [exact Htext|exact Hbytes].
Qed.

End AccountStored.

(** ** The client that keeps the key *)

Section CachedClient.
Context {L : Libs} {LL : LibsLaws L}.
Import KeyServiceCached.

Lemma signature_of_returns (r : response) : returns (signature_of r).
Proof.
  destruct r as [e|st e|st body]; cbn; try exact I.
  destruct (json.Unmarshal_string_struct "sign" body) as [sig|]; [|exact I].
  destruct (decide (sig = "")); [exact I|].
  destruct (hex.DecodeString sig) as [bytes|]; [|exact I].
  destruct (BLSSignatureFromBytes bytes); exact I.
Qed.

Lemma client_record_lookups (ver ur p : jvalue) :
  let m : gmap string jvalue := <["version" := ver]> (<["url" := ur]> (<["pubkey" := p]> ∅)) in
  m !! "url" = Some ur /\ m !! "pubkey" = Some p /\ m !! "version" = Some ver.
Proof. intros m. subst m. repeat split; by simplify_map_eq. Qed.

(** X9.  A client that holds a key and a URL whose text, as JSON stores
    it, parses, with a version below 2^53, is marshalled to a record that
    unmarshals, into any receiver, to a client with the URL parsed from
    that text, a key with the same bytes and the same version. *)
Theorem cached_client_json_round_trip (ks : keyService) pk u u' :
  publicKey ks = Some pk ->
  url ks = Some u ->
  url_Parse (utf8.coerce (url_String u)) = Some u' ->
  0 <= version ks < 2 ^ 53 ->
  exists data pk',
    MarshalJSON ks = Ok data /\
    pk_Marshal pk' = pk_Marshal pk /\
    forall ks0,
      UnmarshalJSON ks0 data =
        ({| url := Some u'; publicKey := Some pk'; version := version ks |}, Ok tt).
Proof.
  intros Hpk Hurl Hparse Hver.
  destruct (of_dyadic_small (version ks) Hver) as [Hfit _].
  destruct (pk_reparse pk) as (pk' & Hcopy & Hbytes).
  unfold MarshalJSON. rewrite Hpk, Hurl.
  eexists _, pk'. split; [reflexivity|]. split; [exact Hbytes|]. intros ks0.
  set (m := <["version" := JNumber (version ks) 0]>
              (<["url" := JString (utf8.coerce (url_String u))]>
                 (<["pubkey" := JString
                      (utf8.coerce (hex.EncodeToString (pk_Marshal pk)))]>
                    (∅ : gmap string jvalue)))).
  assert (Hmap : json.Unmarshal_map
                   (json.Marshal_map
                      (<["version" := json.GoUint (version ks)]>
                         (<["url" := json.GoString (url_String u)]>
                            (<["pubkey" := json.GoString
                                 (hex.EncodeToString (pk_Marshal pk))]> ∅)))) = Some m).
  { unfold json.Marshal_map. rewrite !fmap_insert, fmap_empty. cbn [json.of_goval].
    apply Unmarshal_map_object.
    - repeat (apply map_Forall_insert_2; [first [reflexivity | exact Hfit]|]).
      apply map_Forall_empty.
    - repeat (apply map_Forall_insert_2;
              [split; [reflexivity|];
               first [reflexivity
                     | cbn [json.unquote]; rewrite utf8_coerce_idempotent; reflexivity]|]).
      apply map_Forall_empty. }
  destruct (client_record_lookups (JNumber (version ks) 0)
              (JString (utf8.coerce (url_String u)))
              (JString (utf8.coerce (hex.EncodeToString (pk_Marshal pk)))))
    as (Hlu & Hlp & Hlv).
  fold m in Hlu, Hlp, Hlv.
  unfold UnmarshalJSON. rewrite Hmap, Hlu, Hlp, Hlv.
  cbn [json.as_string json.as_float64].
  rewrite hex_EncodeToString_text.
  rewrite Hparse, hex_DecodeString_EncodeToString, Hcopy.
  cbn [url publicKey version].
  rewrite (go_uint_of_dyadic (version ks) Hver). reflexivity.
Qed.

(** X10.  [UnmarshalJSON] of the client is not atomic: it writes the
    receiver field by field and stops at the first failure.  A record
    without "url" leaves the receiver as it was.  Once the URL has parsed
    the receiver has the URL of the record, and then: a "pubkey" whose
    bytes are not a key leaves it with no key at all, whatever key it
    held; a "version" that is missing or not a number leaves it with the
    key of the record and the version it had; otherwise the receiver
    holds the URL, the key and the version of the record. *)
Theorem cached_UnmarshalJSON_outcomes (ks0 : keyService) (data : document) v :
  json.Unmarshal_map data = Some v ->
  (v !! "url" = None ->
   UnmarshalJSON ks0 data = (ks0, Err (errors_New "keyService url missing"))) /\
  (forall s u p bytes,
     v !! "url" = Some (JString s) ->
     url_Parse s = Some u ->
     v !! "pubkey" = Some (JString p) ->
     hex.DecodeString p = Some bytes ->
     match BLSPublicKeyFromBytes bytes with
     | None =>
         UnmarshalJSON ks0 data =
           ({| url := Some u; publicKey := None; version := version ks0 |},
            Err (lib_error eth2_types))
     | Some pk =>
         match v !! "version" with
         | None =>
             UnmarshalJSON ks0 data =
               ({| url := Some u; publicKey := Some pk; version := version ks0 |},
                Err (errors_New "keyService version missing"))
         | Some (JNumber m e) =>
             UnmarshalJSON ks0 data =
               ({| url := Some u; publicKey := Some pk;
                   version := go_uint (float64.of_dyadic m e) |}, Ok tt)
         | Some _ =>
             UnmarshalJSON ks0 data =
               ({| url := Some u; publicKey := Some pk; version := version ks0 |},
                Err (errors_New "keyService version invalid"))
         end
     end).
Proof.
  intros Hv. unfold UnmarshalJSON. rewrite Hv. split.
  - intros ->. reflexivity.
  - intros s u p bytes -> Hu -> Hb. cbn [json.as_string]. rewrite Hu, Hb.
    destruct (BLSPublicKeyFromBytes bytes) as [pk|]; [|reflexivity].
    destruct (v !! "version") as [[| |m e| | |]|]; reflexivity.
Qed.

(** X11.  The client can sign and be stored once [UnmarshalJSON] has
    filled it, not before.  On the client that [newKeyService] returns,
    [Sign] and [MarshalJSON] dereference the nil key, and nothing is
    sent.  On a client that [UnmarshalJSON] has filled, [Sign] returns,
    with a signature or an error, having sent one request at most, and
    [MarshalJSON] gives a record. *)
Theorem cached_client_usable_once_filled :
  (forall u ks payload domain n,
     newKeyService u = Ok ks ->
     Sign ks payload domain n = (Panic, n) /\ MarshalJSON ks = Panic) /\
  (forall ks0 data ks payload domain n,
     UnmarshalJSON ks0 data = (ks, Ok tt) ->
     returns (fst (Sign ks payload domain n)) /\
     (sent (snd (Sign ks payload domain n)) = sent n \/
      exists req, sent (snd (Sign ks payload domain n)) = (sent n ++ [req])%list) /\
     exists record, MarshalJSON ks = Ok record).
Proof.
  split.
  - intros u ks payload domain n. unfold newKeyService.
    destruct (negb (url_IsAbs u)); [discriminate|]. intros [= <-].
    split; reflexivity.
  - intros ks0 data ks payload domain n Hfill.
    destruct (UnmarshalJSON_client_holds_key ks0 ks data Hfill) as (base & pk & Hurl & Hpk).
    split; [|split].
    + destruct (url_Parse ("/" +:+ hex.EncodeToString (pk_Marshal pk))) as [ref|] eqn:Href.
      * rewrite (Sign_cached_run ks pk base ref payload domain n Hpk Hurl Href).
        apply signature_of_returns.
      * rewrite (Sign_cached_bad_path ks pk base payload domain n Hpk Hurl Href).
        exact I.
    + destruct (url_Parse ("/" +:+ hex.EncodeToString (pk_Marshal pk))) as [ref|] eqn:Href.
      * rewrite (Sign_cached_run ks pk base ref payload domain n Hpk Hurl Href).
        right. eexists. reflexivity.
      * rewrite (Sign_cached_bad_path ks pk base payload domain n Hpk Hurl Href).
        left. reflexivity.
    + unfold MarshalJSON. rewrite Hpk, Hurl. eexists. reflexivity.
Qed.

End CachedClient.

(** ** The client that holds the URL only *)

Section URLClient.
Context {L : Libs}.

(** X12.  [Sign] of the client that holds the URL only follows the
    protocol of the other revision, on the path "sign" and without a key:
    when "sign" does not parse it fails and sends nothing; otherwise it
    sends one POST of the same body to the URL resolved from "sign" and
    reads the answer the same way.  After a [PublicKey] the client has
    kept nothing: a [Sign] that follows sends that same POST, after the
    GET. *)
Theorem Sign_URL_protocol (ks : KeyServiceURL.keyService) payload domain (n : Net) :
  match url_Parse "sign" with
  | None => KeyServiceURL.Sign ks payload domain n = (Err (lib_error net_url), n)
  | Some ref =>
      let req := sign_request (url_ResolveReference (KeyServiceURL.URL ks) ref)
                              payload domain in
      let get := {| req_method := GET;
                    req_url := url_String (KeyServiceURL.URL ks);
                    req_contentType := "";
                    req_body := None |} in
      KeyServiceURL.Sign ks payload domain n =
        (signature_of (peer n (sent n) req),
         {| peer := peer n; sent := sent n ++ [req] |}) /\
      sent (snd (KeyServiceURL.Sign ks payload domain
                   (snd (KeyServiceURL.PublicKey ks n)))) =
        (sent n ++ [get; req])%list
  end.
Proof.
  assert (Hrun : forall ref m, url_Parse "sign" = Some ref ->
            KeyServiceURL.Sign ks payload domain m =
              (signature_of (peer m (sent m)
                 (sign_request (url_ResolveReference (KeyServiceURL.URL ks) ref)
                    payload domain)),
               {| peer := peer m;
                  sent := sent m ++
                    [sign_request (url_ResolveReference (KeyServiceURL.URL ks) ref)
                       payload domain] |})).
  { intros ref m Href.
    unfold KeyServiceURL.Sign, bind, ret, url_Parse_ref. rewrite Href.
    unfold http_Post, roundTrip, KeyServiceURL.Marshal_signRequest.
    cbn [KeyServiceURL.Payload KeyServiceURL.Domain].
    fold (sign_request (url_ResolveReference (KeyServiceURL.URL ks) ref) payload domain).
    unfold signature_of, KeyServiceURL.Unmarshal_signResponse, orElse.
    destruct (peer m (sent m) _) as [e|st e|st body]; try reflexivity.
    destruct (json.Unmarshal_string_struct "sign" body) as [sig|]; [|reflexivity].
    destruct (decide (sig = "")); [reflexivity|].
    destruct (hex.DecodeString sig) as [bytes|]; [|reflexivity].
    destruct (BLSSignatureFromBytes bytes); reflexivity. }
  destruct (url_Parse "sign") as [ref|] eqn:Href.
  - cbv zeta. split; [apply Hrun; reflexivity|].
    rewrite (Hrun ref _ eq_refl). cbn [snd sent].
    assert (Hget : sent (snd (KeyServiceURL.PublicKey ks n)) =
                   (sent n ++ [{| req_method := GET;
                                  req_url := url_String (KeyServiceURL.URL ks);
                                  req_contentType := "";
                                  req_body := None |}])%list).
    { unfold KeyServiceURL.PublicKey, bind, http_Get, roundTrip, ret, orElse.
      destruct (peer n (sent n) _) as [e|st e|st body]; try reflexivity.
      destruct (KeyServiceURL.Unmarshal_publicKeyResponse body) as [pk|]; [|reflexivity].
      destruct (decide (pk = "")); [reflexivity|].
      destruct (hex.DecodeString pk); reflexivity. }
    rewrite Hget, <- app_assoc. reflexivity.
  - unfold KeyServiceURL.Sign, bind, ret, url_Parse_ref. rewrite Href. reflexivity.
Qed.

End URLClient.

(** ** The client built from a string *)

Section DraftClient.
Context {L : Libs}.
Variable key_text : etypes_PublicKey -> string.

(** The request of the revision built from a string. *)
Lemma Sign_draft_run (ks : KeyServiceDraft.keyService) k path payload (n : Net) :
  url_Parse (key_text k) = Some path ->
  let req := {| req_method := POST;
                req_url := url_String (url_ResolveReference (KeyServiceDraft.URL ks) path);
                req_contentType := "application/json";
                req_body := Some (Doc (JObject
                  [("payload", JString (base64.EncodeToString payload))])) |} in
  KeyServiceDraft.Sign key_text ks (Some k) payload n =
    (match peer n (sent n) req with
     | TransportError e | ReadError _ e => Err e
     | Response _ body =>
         match json.Unmarshal_string_struct "signature" body with
         | None => Err (lib_error encoding_json)
         | Some sig => orElse (hex.DecodeString sig) encoding_hex
         end
     end,
     {| peer := peer n; sent := sent n ++ [req] |}).
Proof.
  intros Hpath req.
  unfold KeyServiceDraft.Sign, bind, ret. rewrite Hpath. unfold orElse at 1.
  unfold http_Post, roundTrip, KeyServiceDraft.Marshal_signRequest. fold req.
  unfold KeyServiceDraft.Unmarshal_signResponse.
  destruct (peer n (sent n) req) as [e|st e|st body]; try reflexivity.
  unfold orElse.
  destruct (json.Unmarshal_string_struct "signature" body) as [sig|]; [|reflexivity].
  destruct (hex.DecodeString sig); reflexivity.
Qed.

(** X14.  The revision built from a string does not check that the
    answer has a signature: when the peer answers with a body in which
    "signature" is absent, null or empty, [Sign] sends its one request and
    returns the empty byte slice and no error. *)
Theorem empty_signature_accepted
    (ks : KeyServiceDraft.keyService) k path payload (n : Net) st body :
  url_Parse (key_text k) = Some path ->
  (forall r, peer n (sent n) r = Response st body) ->
  json.Unmarshal_string_struct "signature" body = Some "" ->
  fst (KeyServiceDraft.Sign key_text ks (Some k) payload n) = Ok [] /\
  exists req,
    req_method req = POST /\
    snd (KeyServiceDraft.Sign key_text ks (Some k) payload n) =
      {| peer := peer n; sent := sent n ++ [req] |}.
Proof.
  intros Hpath Hpeer Hbody.
  rewrite (Sign_draft_run ks k path payload n Hpath).
  rewrite Hpeer, Hbody. cbn [fst snd]. split; [reflexivity|].
  eexists. split; [|reflexivity]. reflexivity.
Qed.

End DraftClient.

(* ===================================================================== *)
(** * The properties on the values of the tests *)
(* ===================================================================== *)

#[local] Existing Instance Ref.libs.
#[local] Existing Instance Ref.keyService.

Lemma Ref_laws : LibsLaws Ref.libs.
Proof.
  split.
  - intros [bs Hlen]. cbn. unfold Ref.PublicKeyFromBytes.
    destruct (decide (length bs = 48%nat)) as [ok|no]; [|contradiction].
    eexists; split; reflexivity.
  - intros u. apply hex_DecodeString_EncodeToString.
  - intros u. apply hex_EncodeToString_text.
  - intros tag. apply String.eqb_refl.
Qed.

Example newKeyService_tests :
  KeyServiceCached.newKeyService "" =
    Err (errors_New "keyService URL '' is not absolute") /\
  KeyServiceCached.newKeyService "localhost" =
    Err (errors_New "keyService URL 'localhost' is not absolute") /\
  KeyServiceCached.newKeyService "http://localhost:8080" =
    Ok {| KeyServiceCached.url := Some "http://localhost:8080";
          KeyServiceCached.publicKey := None;
          KeyServiceCached.version := 0 |} /\
  KeyServiceURL.newKeyService "localhost" =
    Err (errors_New "keyService URL 'localhost' is not absolute").
Proof. repeat split. Qed.

Section OnTheTestValues.
Import Account.

(** C1, on the values of the tests: the locked account refuses, and sends
    nothing. *)
Example Sign_locked_test :
  Sign Ref.account1 (list_byte_of_string "abcd") 0 Ref.silent =
    (Err (errors_New "cannot sign when account is locked"), Ref.account1, Ref.silent).
Proof. reflexivity. Qed.

(** C2, on the values of the tests: the unlocked account asked to sign
    "abcd" for domain 42 sends one request, whose body has the payload
    and no domain; it is the request it sends for domain 0. *)
Lemma Sign_ignores_domain_witness :
  let a := set_unlocked true Ref.account1 in
  let n0 := Ref.answering (Doc (JObject [("signature", JString Ref.signatureStr)])) in
  sent (snd (Sign a (list_byte_of_string "abcd") 42 n0)) =
    [ {| req_method := POST;
         req_url := Ref.base +:+ "/" +:+ Ref.pubKeyStr;
         req_contentType := "application/json";
         req_body := Some (Doc (JObject [("payload", JString "YWJjZA==")])) |} ] /\
  Sign a (list_byte_of_string "abcd") 0 n0 = Sign a (list_byte_of_string "abcd") 42 n0.
Proof.
  intros a n0.
  destruct (@Sign_ignores_domain Ref.libs (fun k => hex.EncodeToString (pk_Marshal k))
              a Ref.draft Ref.pubKey Ref.pubKeyStr
              (list_byte_of_string "abcd") 42 n0 eq_refl eq_refl eq_refl eq_refl)
    as [Hsent Hsame].
  split; [exact Hsent|exact (Hsame 0)].
Defined.

(** C3: the claim fails in both revisions.  Where the key is kept, the
    first call sends nothing; where only the URL is held, the second call
    sends a second GET. *)
Lemma PublicKey_claim_counterexample :
  KeyServiceCached.PublicKey Ref.cached Ref.silent =
    (Ok (Some Ref.pubKey), Ref.silent) /\
  sent (snd (KeyServiceCached.PublicKey Ref.cached Ref.silent)) = [] /\
  (let n0 := Ref.answering (Doc (JObject [("pk", JString Ref.pubKeyStr)])) in
   let n1 := snd (KeyServiceURL.PublicKey Ref.urlOnly n0) in
   let n2 := snd (KeyServiceURL.PublicKey Ref.urlOnly n1) in
   let get := {| req_method := GET; req_url := Ref.base;
                 req_contentType := ""; req_body := None |} in
   sent n1 = [get] /\ sent n2 = [get; get]).
Proof. repeat split. Qed.

(** C3, the amended statement on the values of the tests. *)
Lemma PublicKey_held_or_fetched_witness :
  (exists pk',
     KeyServiceCached.PublicKey Ref.cached Ref.silent = (Ok (Some pk'), Ref.silent) /\
     pk_Marshal pk' = Ref.bytes_of_hex Ref.pubKeyStr) /\
  (let n0 := Ref.answering (Doc (JObject [("pk", JString Ref.pubKeyStr)])) in
   sent (snd (KeyServiceURL.PublicKey Ref.urlOnly n0)) =
     [ {| req_method := GET; req_url := Ref.base;
          req_contentType := ""; req_body := None |} ] /\
   omap (fun k => hex.EncodeToString (pk_Marshal k))
        (fst (KeyServiceURL.PublicKey Ref.urlOnly n0)) = Ok Ref.pubKeyStr).
Proof.
  destruct (@PublicKey_held_or_fetched Ref.libs Ref_laws) as [Hheld Hfetched].
  split.
  - exact (Hheld Ref.cached Ref.pubKey Ref.silent eq_refl).
  - intros n0.
    destruct (Hfetched Ref.urlOnly n0) as (Hsent & _ & _ & Hbody).
    split; [exact Hsent|].
    exact (f_equal (omap (fun k => hex.EncodeToString (pk_Marshal k)))
             (Hbody 200 (Doc (JObject [("pk", JString Ref.pubKeyStr)])) eq_refl)).
Defined.

(** C5, on the values of the tests: "abcd" for domain 0, answered with
    the signature of the test. *)
Lemma Sign_cached_protocol_witness :
  let n0 := Ref.answering (Doc (JObject [("sign", JString Ref.signatureStr)])) in
  let out := KeyServiceCached.Sign Ref.cached (list_byte_of_string "abcd") 0 n0 in
  sent (snd out) =
    [ {| req_method := POST;
         req_url := Ref.base +:+ "/" +:+ Ref.pubKeyStr;
         req_contentType := "application/json";
         req_body := Some (Doc (JObject [("payload", JString "abcd");
                                         ("domain", JNumber 0 0)])) |} ] /\
  fst out = Ok (Ref.bytes_of_hex Ref.signatureStr).
Proof.
  intros n0 out.
  destruct (@Sign_cached_protocol Ref.libs Ref_laws Ref.cached Ref.pubKey Ref.base
              ("/" +:+ Ref.pubKeyStr) (list_byte_of_string "abcd") 0 n0
              eq_refl eq_refl eq_refl) as (Hsent & _ & _ & _ & Hbody).
  split; [exact Hsent|].
  exact (Hbody 200 (Doc (JObject [("sign", JString Ref.signatureStr)])) eq_refl).
Defined.

(** C5: the claim fails on a payload that is not valid UTF-8.  The byte
    0xFF goes out as U+FFFD, and so does the byte 0xFE: the two payloads
    send the same request. *)
Lemma Sign_claim_counterexample :
  let n0 := Ref.answering (Doc (JObject [("sign", JString Ref.signatureStr)])) in
  sent (snd (KeyServiceCached.Sign Ref.cached [xff] 0 n0)) =
    [ {| req_method := POST;
         req_url := Ref.base +:+ "/" +:+ Ref.pubKeyStr;
         req_contentType := "application/json";
         req_body := Some (Doc (JObject [("payload", JString utf8.RuneError);
                                         ("domain", JNumber 0 0)])) |} ] /\
  String.eqb (string_of_list_byte [xff]) utf8.RuneError = false /\
  sent (snd (KeyServiceCached.Sign Ref.cached [xfe] 0 n0)) =
    sent (snd (KeyServiceCached.Sign Ref.cached [xff] 0 n0)).
Proof. repeat split. Qed.

(** C6, the amended statement on the first account of the tests. *)
Lemma account_json_round_trip_witness :
  exists data,
    MarshalJSON Ref.account1 = Ok data /\
    forall a0, exists a' pk',
      UnmarshalJSON a0 data = (a', Ok tt) /\
      id a' = Ref.id1 /\
      name a' = "Account 1" /\
      publicKey a' = Some pk' /\
      pk_Marshal pk' = Ref.bytes_of_hex Ref.pubKeyStr /\
      version a' = 4.
Proof.
  destruct (@account_json_round_trip Ref.libs Ref.keyService Ref_laws
              Ref.account1 Ref.pubKey Ref.draft Ref.draft
              eq_refl eq_refl eq_refl eq_refl) as (data & Hm & Hread).
  exists data. split; [exact Hm|]. intros a0.
  destruct (Hread a0) as (a' & pk' & Hrun & Hid & _ & Hname & Hpk & Hbytes & Hver).
  exists a', pk'. split; [exact Hrun|]. split; [exact Hid|].
  split; [exact (Hname eq_refl)|]. split; [exact Hpk|]. split; [exact Hbytes|exact Hver].
Defined.

(** C6: the claim fails on a name that is not valid UTF-8.  The first
    account of the tests, named with the one byte 0xFF, is written and
    read back without error, and comes back named U+FFFD. *)
Lemma round_trip_claim_counterexample :
  let a := set_name (String "255" "") Ref.account1 in
  omap (fun data => snd (UnmarshalJSON newAccount data)) (MarshalJSON a) = Ok (Ok tt) /\
  omap (fun data => name (fst (UnmarshalJSON newAccount data))) (MarshalJSON a) =
    Ok utf8.RuneError /\
  String.eqb (name a) utf8.RuneError = false.
Proof. repeat split. Qed.

(** C4: the claim fails on a URL whose text is not what it prints.  The
    input "local host" parses, is not absolute, and is named in the
    message as the URL prints it, not as it was given. *)
Lemma newKeyService_claim_counterexample :
  @url_Parse RefEscaped.libs "local host" = Some "local host" /\
  @KeyServiceCached.newKeyService RefEscaped.libs "local host" =
    Err (errors_New "keyService URL 'local%20host' is not absolute") /\
  @KeyServiceURL.newKeyService RefEscaped.libs "local host" =
    Err (errors_New "keyService URL 'local%20host' is not absolute").
Proof. repeat split. Qed.

Example deserializeAccount_test :
  omap Ref.account_summary
       (deserializeAccount (Some "keystore") (Ref.record "uuid" (JNumber 4 0))) =
    Ok (Ref.idStr, "Account 1", Some Ref.pubKeyStr, 4, Some "keystore", Some Ref.base).
Proof. reflexivity. Qed.

(** C7: the claim fails twice.  A record whose version is 5 and that has
    no identity fails with another message; a complete record whose
    version is 4.5 (the literal [9 * 2^-1]) does not fail at all: the
    account comes out with version 4 and the keystorev4 encryptor. *)
Lemma version_claim_counterexample :
  snd (UnmarshalJSON newAccount (Doc (JObject [("version", JNumber 5 0)]))) =
    Err (errors_New "account ID missing") /\
  snd (UnmarshalJSON newAccount (Ref.record "uuid" (JNumber 9 (-1)))) = Ok tt /\
  version (fst (UnmarshalJSON newAccount (Ref.record "uuid" (JNumber 9 (-1))))) = 4 /\
  encryptor (fst (UnmarshalJSON newAccount (Ref.record "uuid" (JNumber 9 (-1))))) =
    Some keystorev4_New.
Proof. repeat split. Qed.

(** C7, the amended statement on the record of the tests, with version 5
    and with version 4. *)
Lemma version_other_than_4_unsupported_witness :
  snd (UnmarshalJSON newAccount (Ref.record "uuid" (JNumber 5 0))) =
    Err (errors_New "unsupported keystore version") /\
  snd (UnmarshalJSON newAccount (Ref.record "uuid" (JNumber 4 0))) = Ok tt /\
  encryptor (fst (UnmarshalJSON newAccount (Ref.record "uuid" (JNumber 4 0)))) =
    Some keystorev4_New.
Proof.
  split.
  - pose (v := json.obj_to_map (Ref.members "uuid" (JNumber 5 0))).
    destruct (@version_other_than_4_unsupported Ref.libs Ref.keyService
                newAccount (fst (beforeVersion v newAccount))
                (Ref.record "uuid" (JNumber 5 0)) v (JNumber 5 0)
                (float64.of_dyadic 5 0) 5
                eq_refl eq_refl eq_refl eq_refl eq_refl eq_refl)
      as [Hother _]; [lia|].
    exact (f_equal snd (Hother ltac:(discriminate))).
  - pose (v := json.obj_to_map (Ref.members "uuid" (JNumber 4 0))).
    destruct (@version_other_than_4_unsupported Ref.libs Ref.keyService
                newAccount (fst (beforeVersion v newAccount))
                (Ref.record "uuid" (JNumber 4 0)) v (JNumber 4 0)
                (float64.of_dyadic 4 0) 4
                eq_refl eq_refl eq_refl eq_refl eq_refl eq_refl)
      as [_ Hfour]; [lia|].
    destruct (Hfour eq_refl) as [Hrun Henc].
    split; [exact (f_equal snd Hrun)|exact Henc].
Defined.

(** C10: the claim fails on the record that has the legacy "id" and
    nothing else: the identity is taken, and the name is missed. *)
Lemma legacy_id_claim_counterexample :
  snd (UnmarshalJSON newAccount (Doc (JObject [("id", JString Ref.idStr)]))) =
    Err (errors_New "account name missing") /\
  id (fst (UnmarshalJSON newAccount (Doc (JObject [("id", JString Ref.idStr)])))) =
    Ref.id1.
Proof. repeat split. Qed.

(** C10, the amended statement on the record of the tests written with
    "id", and on the empty record. *)
Lemma legacy_id_field_accepted_witness :
  snd (UnmarshalJSON newAccount (Ref.record "id" (JNumber 4 0))) = Ok tt /\
  id (fst (UnmarshalJSON newAccount (Ref.record "id" (JNumber 4 0)))) = Ref.id1 /\
  snd (UnmarshalJSON newAccount (Doc (JObject []))) =
    Err (errors_New "account ID missing").
Proof.
  destruct (@legacy_id_field_accepted Ref.libs Ref.keyService) as [Hlegacy Hmissing].
  { intros s. discriminate. }
  pose (v := json.obj_to_map (Ref.members "id" (JNumber 4 0))).
  destruct (Hlegacy newAccount (Ref.record "id" (JNumber 4 0)) v Ref.idStr Ref.id1
              eq_refl eq_refl eq_refl eq_refl) as (_ & _ & Hok).
  destruct (Hok (fst (afterID v (set_id Ref.id1 newAccount))) eq_refl) as [Hrun Hid].
  split; [exact (f_equal snd Hrun)|].
  split; [exact (eq_trans (f_equal (fun r => id (fst r)) Hrun) Hid)|].
  apply Hmissing. exists ∅. repeat split.
Defined.

End OnTheTestValues.

(** * The further properties on the values of the tests *)

Section FurtherOnTheTestValues.
Import Account.

(** X3, on the record of the tests read for a wallet whose encryptor is
    another one. *)
Lemma deserializeAccount_result_witness :
  exists a,
    deserializeAccount (Some "scrypt") (Ref.record "uuid" (JNumber 4 0)) = Ok a /\
    version a = 4 /\
    encryptor a = Some "keystore" /\
    wallet a = Some (Some "scrypt") /\
    unlocked a = false /\
    (exists pk, publicKey a = Some pk) /\
    (exists ks, keyService a = Some ks).
Proof.
  eexists. split; [reflexivity|].
  exact (@deserializeAccount_result Ref.libs Ref.keyService (Some "scrypt")
           (Ref.record "uuid" (JNumber 4 0)) _ eq_refl).
Defined.

(** X5, on the record of the tests: with an "id" added that is no
    identifier it is read as before; with an "id" added whose number is
    outside float64 it does not decode. *)
Lemma uuid_takes_precedence_witness :
  UnmarshalJSON newAccount (Ref.record "uuid" (JNumber 4 0)) =
  UnmarshalJSON newAccount
    (Doc (JObject (Ref.members "uuid" (JNumber 4 0) ++ [("id", JString "none")]))) /\
  UnmarshalJSON newAccount
    (Doc (JObject (Ref.members "uuid" (JNumber 4 0) ++ [("id", JNumber 1 2000)]))) =
    (newAccount, Err (lib_error encoding_json)).
Proof.
  destruct (@uuid_takes_precedence Ref.libs Ref.keyService) as [Hsame Hfail].
  split.
  - pose (v := json.obj_to_map (Ref.members "uuid" (JNumber 4 0))).
    apply (Hsame newAccount
             (Ref.record "uuid" (JNumber 4 0))
             (Doc (JObject (Ref.members "uuid" (JNumber 4 0) ++ [("id", JString "none")])))
             v (<["id" := JString "none"]> v) (JString Ref.idStr)
             eq_refl eq_refl eq_refl).
    intros k Hk. apply lookup_insert_ne. congruence.
  - exact (Hfail newAccount (Ref.members "uuid" (JNumber 4 0)) "id" (JNumber 1 2000)
             eq_refl).
Defined.

(** X6, on the first account of the tests. *)
Lemma lock_flag_not_stored_witness :
  exists data a',
    MarshalJSON (set_unlocked true Ref.account1) = Ok data /\
    MarshalJSON (set_unlocked false Ref.account1) = Ok data /\
    deserializeAccount None data = Ok a' /\
    id a' = Ref.id1 /\
    IsUnlocked a' = false /\
    Sign a' (list_byte_of_string "abcd") 0 Ref.silent =
      (Err (errors_New "cannot sign when account is locked"), a', Ref.silent).
Proof.
  destruct (@lock_flag_not_stored Ref.libs Ref_laws Ref.keyService
              Ref.account1 Ref.pubKey Ref.draft Ref.draft
              eq_refl eq_refl eq_refl eq_refl) as (data & Hm & Hd).
  destruct (Hd None) as (a' & Hread & Hid & Hlocked & Hsign).
  exists data, a'.
  split; [exact (Hm true)|]. split; [exact (Hm false)|].
  split; [exact Hread|]. split; [exact Hid|]. split; [exact Hlocked|].
  exact (Hsign (list_byte_of_string "abcd") 0 Ref.silent).
Defined.

(** X7, on the first account of the tests with version 5. *)
Lemma other_version_written_not_read_witness :
  exists data pk',
    MarshalJSON (set_version 5 Ref.account1) = Ok data /\
    pk_Marshal pk' = Ref.bytes_of_hex Ref.pubKeyStr /\
    UnmarshalJSON newAccount data =
      (set_version 5
         (set_publicKey (Some pk') (set_name "Account 1" (set_id Ref.id1 newAccount))),
       Err (errors_New "unsupported keystore version")).
Proof.
  destruct (@other_version_written_not_read Ref.libs Ref_laws Ref.keyService
              (set_version 5 Ref.account1) Ref.pubKey Ref.draft
              eq_refl eq_refl) as (data & pk' & Hm & Hbytes & Hread).
  { split; [discriminate|reflexivity]. }
  { discriminate. }
  exists data, pk'. split; [exact Hm|]. split; [exact Hbytes|].
  exact (Hread newAccount).
Defined.

(** X8, on the first account of the tests. *)
Lemma account_PublicKey_copies_witness :
  exists pk',
    PublicKey Ref.account1 = Ok (Some pk') /\
    pk_Marshal pk' = Ref.bytes_of_hex Ref.pubKeyStr.
Proof.
  exact (proj1 (@account_PublicKey_copies Ref.libs Ref_laws Ref.keyService)
           Ref.account1 Ref.pubKey eq_refl).
Defined.

(** X9, on the client of the tests, read into an empty client. *)
Lemma cached_client_json_round_trip_witness :
  exists data pk',
    KeyServiceCached.MarshalJSON Ref.cached = Ok data /\
    pk_Marshal pk' = Ref.bytes_of_hex Ref.pubKeyStr /\
    KeyServiceCached.UnmarshalJSON RefMore.emptyClient data =
      ({| KeyServiceCached.url := Some Ref.base;
          KeyServiceCached.publicKey := Some pk';
          KeyServiceCached.version := 1 |}, Ok tt).
Proof.
  destruct (@cached_client_json_round_trip Ref.libs Ref_laws
              Ref.cached Ref.pubKey Ref.base Ref.base eq_refl eq_refl eq_refl)
    as (data & pk' & Hm & Hbytes & Hread).
  { split; [discriminate|reflexivity]. }
  exists data, pk'. split; [exact Hm|]. split; [exact Hbytes|].
  exact (Hread RefMore.emptyClient).
Defined.

(** X10, on the client of the tests: a record whose "pubkey" is two
    bytes erases the key it held, and a record without "version" replaces
    its URL and leaves its version. *)
Lemma cached_UnmarshalJSON_outcomes_witness :
  RefMore.cachedSummary
    (fst (KeyServiceCached.UnmarshalJSON Ref.cached
            (Doc (JObject [("url", JString "localhost"); ("pubkey", JString "abcd")])))) =
    (Some "localhost", None, 1) /\
  KeyServiceCached.UnmarshalJSON Ref.cached
    (Doc (JObject [("url", JString "localhost"); ("pubkey", JString Ref.pubKeyStr)])) =
    ({| KeyServiceCached.url := Some "localhost";
        KeyServiceCached.publicKey := Some Ref.pubKey;
        KeyServiceCached.version := 1 |},
     Err (errors_New "keyService version missing")).
Proof.
  split.
  - pose (data := Doc (JObject [("url", JString "localhost"); ("pubkey", JString "abcd")])).
    destruct (@cached_UnmarshalJSON_outcomes Ref.libs Ref.cached data
                (json.obj_to_map [("url", JString "localhost"); ("pubkey", JString "abcd")])
                eq_refl) as [_ Hrun].
    exact (f_equal (fun r => RefMore.cachedSummary (fst r))
             (Hrun "localhost" "localhost" "abcd" (Ref.bytes_of_hex "abcd")
                eq_refl eq_refl eq_refl eq_refl)).
  - pose (data := Doc (JObject [("url", JString "localhost");
                                ("pubkey", JString Ref.pubKeyStr)])).
    destruct (@cached_UnmarshalJSON_outcomes Ref.libs Ref.cached data
                (json.obj_to_map [("url", JString "localhost");
                                  ("pubkey", JString Ref.pubKeyStr)])
                eq_refl) as [_ Hrun].
    exact (Hrun "localhost" "localhost" Ref.pubKeyStr (Ref.bytes_of_hex Ref.pubKeyStr)
             eq_refl eq_refl eq_refl eq_refl).
Defined.

(** X11, on the client that [newKeyService] makes for the URL of the
    tests, and on the client read from a record whose URL is not
    absolute. *)
Lemma cached_client_usable_once_filled_witness :
  KeyServiceCached.Sign
    {| KeyServiceCached.url := Some Ref.base;
       KeyServiceCached.publicKey := None;
       KeyServiceCached.version := 0 |}
    (list_byte_of_string "abcd") 0 Ref.silent = (Panic, Ref.silent) /\
  (let ks := fst (KeyServiceCached.UnmarshalJSON RefMore.emptyClient
                    (RefMore.clientRecord "localhost" (JNumber 1 0))) in
   returns (fst (KeyServiceCached.Sign ks (list_byte_of_string "abcd") 0 Ref.silent)) /\
   exists record, KeyServiceCached.MarshalJSON ks = Ok record).
Proof.
  destruct (@cached_client_usable_once_filled Ref.libs Ref_laws) as [Hnew Hfilled].
  split.
  - exact (proj1 (Hnew Ref.base _ (list_byte_of_string "abcd") 0 Ref.silent eq_refl)).
  - intros ks.
    destruct (Hfilled RefMore.emptyClient
                (RefMore.clientRecord "localhost" (JNumber 1 0)) ks
                (list_byte_of_string "abcd") 0 Ref.silent eq_refl)
      as (Hret & _ & Hm).
    split; [exact Hret|exact Hm].
Defined.

(** X14, on the client of the tests and a peer that answers with the
    empty object. *)
Lemma empty_signature_accepted_witness :
  let n0 := Ref.answering (Doc (JObject [])) in
  fst (KeyServiceDraft.Sign (fun k => hex.EncodeToString (pk_Marshal k))
         Ref.draft (Some Ref.pubKey) (list_byte_of_string "abcd") n0) = Ok [] /\
  exists req,
    req_method req = POST /\
    snd (KeyServiceDraft.Sign (fun k => hex.EncodeToString (pk_Marshal k))
           Ref.draft (Some Ref.pubKey) (list_byte_of_string "abcd") n0) =
      {| peer := peer n0; sent := sent n0 ++ [req] |}.
Proof.
  intros n0.
  apply (@empty_signature_accepted Ref.libs
           (fun k => hex.EncodeToString (pk_Marshal k))
           Ref.draft Ref.pubKey Ref.pubKeyStr
           (list_byte_of_string "abcd") n0 200 (Doc (JObject []))
           eq_refl).
  - intros r. reflexivity.
  - reflexivity.
Defined.

(** X15, on the record of the tests. *)
Lemma decoded_account_signs_witness :
  exists a pk ks,
    deserializeAccount None (Ref.record "uuid" (JNumber 4 0)) = Ok a /\
    publicKey a = Some pk /\
    keyService a = Some ks /\
    Sign (fst (Unlock a [])) (list_byte_of_string "abcd") 0 Ref.silent =
      (fst (ks_Sign ks (Some pk) (list_byte_of_string "abcd") Ref.silent),
       fst (Unlock a []),
       snd (ks_Sign ks (Some pk) (list_byte_of_string "abcd") Ref.silent)).
Proof.
  eexists.
  destruct (proj1 (@decoded_account_signs Ref.libs Ref.keyService
                     None (Ref.record "uuid" (JNumber 4 0)) _ eq_refl))
    as (pk & ks & Hpk & Hks & Hsign).
  exists pk, ks. split; [reflexivity|]. split; [exact Hpk|]. split; [exact Hks|].
  exact (Hsign [] (list_byte_of_string "abcd") 0 Ref.silent).
Defined.

(** X16, on the record of the tests, read for one wallet and read again
    for another. *)
Lemma decoded_account_stored_again_witness :
  exists a record a',
    deserializeAccount None (Ref.record "uuid" (JNumber 4 0)) = Ok a /\
    MarshalJSON a = Ok record /\
    deserializeAccount (Some "scrypt") record = Ok a' /\
    id a' = id a /\
    name a' = name a /\
    wallet a' = Some (Some "scrypt").
Proof.
  eexists.
  destruct (@decoded_account_stored_again Ref.libs Ref_laws Ref.keyService
              None (Ref.record "uuid" (JNumber 4 0)) _ eq_refl)
    as (_ & record & ks & pk & Hm & Hks & _ & Hagain).
  injection Hks as <-.
  destruct (Hagain Ref.draft (Some "scrypt") eq_refl)
    as (a' & pk' & Hread & Hid & Hname & _ & _ & _ & Hwallet).
  exists record, a'.
  split; [reflexivity|]. split; [exact Hm|]. split; [exact Hread|].
  split; [exact Hid|]. split; [exact Hname|exact Hwallet].
Defined.

End FurtherOnTheTestValues.
